(** * Form validation and submission logic of the screen templates

    Shallow embedding of the validation, state-update and submission code
    of [src/templates/screens/FormScreen.tsx] and
    [src/templates/screens/LoginScreen.tsx].

    JavaScript strings are sequences of UTF-16 code units, so a string is
    modelled as a list of code units ([list Z]); [String.prototype.length]
    is the list length. *)

From Stdlib Require Import ZArith List Bool Lia String Ascii DecimalString.
Import ListNotations.
Open Scope Z_scope.

(** ** JavaScript strings *)

Definition jstring := list Z.

(** Code units of an ASCII literal. *)
Definition js (s : string) : jstring :=
  map (fun a => Z.of_nat (nat_of_ascii a)) (list_ascii_of_string s).

(** ECMAScript WhiteSpace and LineTerminator code units: the set removed by
    [String.prototype.trim] and matched by the regex class [\s]. *)
Definition is_ws (c : Z) : bool :=
  (9 <=? c) && (c <=? 13) || (c =? 32) || (c =? 160) || (c =? 5760)
  || (8192 <=? c) && (c <=? 8202) || (c =? 8232) || (c =? 8233)
  || (c =? 8239) || (c =? 8287) || (c =? 12288) || (c =? 65279).

(** The regex class [\d] (no [u] flag): ASCII digits. *)
Definition is_digit (c : Z) : bool := (48 <=? c) && (c <=? 57).

Fixpoint drop_ws (s : jstring) : jstring :=
  match s with
  | c :: s' => if is_ws c then drop_ws s' else s
  | [] => []
  end.

(** [s.trim()]: leading and trailing white space removed. *)
Definition trim (s : jstring) : jstring := rev (drop_ws (rev (drop_ws s))).

(** JavaScript truthiness of a string: only the empty string is falsy. *)
Definition truthy (s : jstring) : bool :=
  match s with [] => false | _ => true end.

(** [s.replace(/\D/g, '')]: every non-digit code unit removed. *)
Definition strip_non_digits (s : jstring) : jstring := filter is_digit s.

(** ** Anchored regular expressions

    The regexes of the source are all of the shape [^p1 p2 ... pn$] where
    each [pi] is a character class under a quantifier ([+], [?], [{m}],
    [{m,n}]).  A piece is such a quantified class. *)

Record piece := Piece { cls : Z -> bool; pmin : nat; pmax : option nat }.

(** Try [f n], [f (n-1)], ..., [f 0] and keep the first success: the
    backtracking order of a greedy quantifier. *)
Fixpoint try_down {A} (n : nat) (f : nat -> option A) : option A :=
  match f n with
  | Some a => Some a
  | None => match n with O => None | S n' => try_down n' f end
  end.

(** Backtracking match of [^ps$] against [s]; on success, the substring
    consumed by each piece (the capture of each piece). *)
Fixpoint rx (ps : list piece) (s : jstring) : option (list jstring) :=
  match ps with
  | [] => match s with [] => Some [] | _ => None end
  | p :: ps' =>
      let hi := match pmax p with
                | Some m => Nat.min m (List.length s)
                | None => List.length s
                end in
      try_down hi (fun k =>
        if Nat.leb (pmin p) k && forallb (cls p) (firstn k s)
        then option_map (cons (firstn k s)) (rx ps' (skipn k s))
        else None)
  end.

(** [re.test(s)]. *)
Definition rx_test (ps : list piece) (s : jstring) : bool :=
  match rx ps s with Some _ => true | None => false end.

Definition lit (c : Z) : Z -> bool := Z.eqb c.
Definition one (c : Z -> bool) := Piece c 1 (Some 1%nat).
Definition opt (c : Z -> bool) := Piece c 0 (Some 1%nat).
Definition plus (c : Z -> bool) := Piece c 1 None.
Definition times (c : Z -> bool) (m n : nat) := Piece c m (Some n).

(** [[^\s@]] *)
Definition not_ws_at (c : Z) : bool := negb (is_ws c) && negb (c =? 64).

(** [/^[^\s@]+@[^\s@]+\.[^\s@]+$/] *)
Definition emailRegex : list piece :=
  [plus not_ws_at; one (lit 64); plus not_ws_at; one (lit 46); plus not_ws_at].

(** [/^\(?\d{2}\)?[\s-]?\d{4,5}[\s-]?\d{4}$/] *)
Definition phoneRegex : list piece :=
  [opt (lit 40); times is_digit 2 2; opt (lit 41);
   opt (fun c => is_ws c || (c =? 45)); times is_digit 4 5;
   opt (fun c => is_ws c || (c =? 45)); times is_digit 4 4].

(** [/^(\d{2})(\d{4,5})(\d{4})$/] *)
Definition phoneGroups : list piece :=
  [times is_digit 2 2; times is_digit 4 5; times is_digit 4 4].

(** ** Helpers shared by both screens *)

Definition validateEmail (email : jstring) : bool := rx_test emailRegex email.

Definition validatePhone (phone : jstring) : bool :=
  rx_test phoneRegex (strip_non_digits phone).

(** [formatPhone]: reformat as [(dd) dddd[d]-dddd] when the digits match. *)
Definition formatPhone (phone : jstring) : jstring :=
  let cleaned := strip_non_digits phone in
  match rx phoneGroups cleaned with
  | Some [g1; g2; g3] => [40] ++ g1 ++ [41; 32] ++ g2 ++ [45] ++ g3
  | _ => phone
  end.

(** ** [FormScreen.tsx] *)
Module FormScreen.

(** A [Date], through the local-time calendar fields the code reads
    ([getFullYear]). *)
Record Date := mkDate { year : Z; month : Z; day : Z }.

Definition getFullYear (d : Date) : Z := year d.

(** [interface FormData] *)
Record FormData := mkFormData {
  firstName : jstring;
  lastName : jstring;
  email : jstring;
  phone : jstring;
  birthDate : Date;
  gender : jstring;
  country : jstring;
  bio : jstring;
  notifications : bool;
  newsletter : bool
}.

(** [interface FormErrors]: every field optional ([undefined] is [None]). *)
Record FormErrors := mkFormErrors {
  err_firstName : option jstring;
  err_lastName : option jstring;
  err_email : option jstring;
  err_phone : option jstring;
  err_birthDate : option jstring;
  err_country : option jstring;
  err_bio : option jstring
}.

Definition noErrors : FormErrors :=
  mkFormErrors None None None None None None None.

(** [keyof FormData] *)
Inductive field :=
| F_firstName | F_lastName | F_email | F_phone | F_birthDate
| F_gender | F_country | F_bio | F_notifications | F_newsletter.

(** [keyof FormErrors] *)
Inductive errfield :=
| E_firstName | E_lastName | E_email | E_phone | E_birthDate
| E_country | E_bio.

Definition value_of (f : field) : Type :=
  match f with
  | F_birthDate => Date
  | F_notifications | F_newsletter => bool
  | _ => jstring
  end.

(** [formData[f]] *)
Definition get_field (d : FormData) (f : field) : value_of f :=
  match f return value_of f with
  | F_firstName => firstName d | F_lastName => lastName d
  | F_email => email d | F_phone => phone d | F_birthDate => birthDate d
  | F_gender => gender d | F_country => country d | F_bio => bio d
  | F_notifications => notifications d | F_newsletter => newsletter d
  end.

(** [{ ...d, [f]: v }] *)
Definition set_field (d : FormData) (f : field) : value_of f -> FormData :=
  let '(mkFormData a b c p t g k o n w) := d in
  match f return value_of f -> FormData with
  | F_firstName => fun v => mkFormData v b c p t g k o n w
  | F_lastName => fun v => mkFormData a v c p t g k o n w
  | F_email => fun v => mkFormData a b v p t g k o n w
  | F_phone => fun v => mkFormData a b c v t g k o n w
  | F_birthDate => fun v => mkFormData a b c p v g k o n w
  | F_gender => fun v => mkFormData a b c p t v k o n w
  | F_country => fun v => mkFormData a b c p t g v o n w
  | F_bio => fun v => mkFormData a b c p t g k v n w
  | F_notifications => fun v => mkFormData a b c p t g k o v w
  | F_newsletter => fun v => mkFormData a b c p t g k o n v
  end.

(** [errors[f]] *)
Definition get_err (e : FormErrors) (f : errfield) : option jstring :=
  match f with
  | E_firstName => err_firstName e | E_lastName => err_lastName e
  | E_email => err_email e | E_phone => err_phone e
  | E_birthDate => err_birthDate e | E_country => err_country e
  | E_bio => err_bio e
  end.

(** [{ ...e, [f]: m }] *)
Definition set_err (e : FormErrors) (f : errfield) (m : option jstring)
  : FormErrors :=
  let '(mkFormErrors a b c p t k o) := e in
  match f with
  | E_firstName => mkFormErrors m b c p t k o
  | E_lastName => mkFormErrors a m c p t k o
  | E_email => mkFormErrors a b m p t k o
  | E_phone => mkFormErrors a b c m t k o
  | E_birthDate => mkFormErrors a b c p m k o
  | E_country => mkFormErrors a b c p t m o
  | E_bio => mkFormErrors a b c p t k m
  end.

(** [field as keyof FormErrors]: the fields that carry an error entry. *)
Definition err_of (f : field) : option errfield :=
  match f with
  | F_firstName => Some E_firstName | F_lastName => Some E_lastName
  | F_email => Some E_email | F_phone => Some E_phone
  | F_birthDate => Some E_birthDate | F_country => Some E_country
  | F_bio => Some E_bio
  | _ => None
  end.

(** The messages of [validateForm] (code units of the Portuguese text). *)
Definition msg_firstName_required :=
  js "Nome " ++ [233] ++ js " obrigat" ++ [243] ++ js "rio".
Definition msg_firstName_short := js "Nome deve ter pelo menos 2 caracteres".
Definition msg_lastName_required :=
  js "Sobrenome " ++ [233] ++ js " obrigat" ++ [243] ++ js "rio".
Definition msg_lastName_short :=
  js "Sobrenome deve ter pelo menos 2 caracteres".
Definition msg_email_required :=
  js "Email " ++ [233] ++ js " obrigat" ++ [243] ++ js "rio".
Definition msg_email_invalid := js "Email inv" ++ [225] ++ js "lido".
Definition msg_phone_required :=
  js "Telefone " ++ [233] ++ js " obrigat" ++ [243] ++ js "rio".
Definition msg_phone_invalid := js "Telefone inv" ++ [225] ++ js "lido".
Definition msg_age_min :=
  js "Idade m" ++ [237] ++ js "nima " ++ [233] ++ js " 13 anos".
Definition msg_age_invalid :=
  js "Data de nascimento inv" ++ [225] ++ js "lida".
Definition msg_country_required :=
  js "Pa" ++ [237] ++ js "s " ++ [233] ++ js " obrigat" ++ [243] ++ js "rio".
Definition msg_bio_long :=
  js "Bio deve ter no m" ++ [225] ++ js "ximo 500 caracteres".

(** [newErrors.f = msg; isValid = false;] *)
Definition fail_with (st : FormErrors * bool) (f : errfield) (msg : jstring)
  : FormErrors * bool :=
  (set_err (fst st) f (Some msg), false).

(** [validateForm], without its final [setErrors(newErrors)]: the validity
    flag and the new error object.  [todayYear] is
    [new Date().getFullYear()] at the time of the call. *)
Definition validateForm (todayYear : Z) (formData : FormData)
  : bool * FormErrors :=
  let st := (noErrors, true) in
  (* Nome *)
  let st :=
    if negb (truthy (trim (firstName formData)))
    then fail_with st E_firstName msg_firstName_required
    else if Z.of_nat (List.length (firstName formData)) <? 2
    then fail_with st E_firstName msg_firstName_short
    else st in
  (* Sobrenome *)
  let st :=
    if negb (truthy (trim (lastName formData)))
    then fail_with st E_lastName msg_lastName_required
    else if Z.of_nat (List.length (lastName formData)) <? 2
    then fail_with st E_lastName msg_lastName_short
    else st in
  (* Email *)
  let st :=
    if negb (truthy (trim (email formData)))
    then fail_with st E_email msg_email_required
    else if negb (validateEmail (email formData))
    then fail_with st E_email msg_email_invalid
    else st in
  (* Telefone *)
  let st :=
    if negb (truthy (trim (phone formData)))
    then fail_with st E_phone msg_phone_required
    else if negb (validatePhone (phone formData))
    then fail_with st E_phone msg_phone_invalid
    else st in
  (* Data de nascimento *)
  let age := todayYear - getFullYear (birthDate formData) in
  let st :=
    if age <? 13 then fail_with st E_birthDate msg_age_min
    else if 120 <? age then fail_with st E_birthDate msg_age_invalid
    else st in
  (* País *)
  let st :=
    if negb (truthy (country formData))
    then fail_with st E_country msg_country_required
    else st in
  (* Bio *)
  let st :=
    if 500 <? Z.of_nat (List.length (bio formData))
    then fail_with st E_bio msg_bio_long
    else st in
  (snd st, fst st).


(** [Partial<FormData>] *)
Record PartialFormData := mkPartialFormData {
  p_firstName : option jstring;
  p_lastName : option jstring;
  p_email : option jstring;
  p_phone : option jstring;
  p_birthDate : option Date;
  p_gender : option jstring;
  p_country : option jstring;
  p_bio : option jstring;
  p_notifications : option bool;
  p_newsletter : option bool
}.

(** [initialData?.f || default] for a string field. *)
Definition or_str (o : option jstring) (dflt : jstring) : jstring :=
  match o with Some s => if truthy s then s else dflt | None => dflt end.

(** [initialData?.f || default] for a Date (an object is always truthy). *)
Definition or_date (o : option Date) (dflt : Date) : Date :=
  match o with Some x => x | None => dflt end.

Definition or_bool (o : option bool) (dflt : bool) : bool :=
  match o with Some b => b || dflt | None => dflt end.

(** Screen state: the [useState] cells of [FormScreen]. *)
Record FormState := mkFormState {
  formData : FormData;
  errors : FormErrors;
  showDatePicker : bool;
  isLoading : bool
}.

(** The initial state; [now] is [new Date()] when the screen is built. *)
Definition initialState (initialData : option PartialFormData) (now : Date)
  : FormState :=
  let get {A} (f : PartialFormData -> option A) :=
    match initialData with Some p => f p | None => None end in
  mkFormState
    (mkFormData
       (or_str (get p_firstName) [])
       (or_str (get p_lastName) [])
       (or_str (get p_email) [])
       (or_str (get p_phone) [])
       (or_date (get p_birthDate) now)
       (or_str (get p_gender) [])
       (or_str (get p_country) [])
       (or_str (get p_bio) [])
       (or_bool (get p_notifications) false)
       (or_bool (get p_newsletter) false))
    noErrors false false.

Definition with_errors (st : FormState) (e : FormErrors) : FormState :=
  mkFormState (formData st) e (showDatePicker st) (isLoading st).

Definition with_loading (st : FormState) (b : bool) : FormState :=
  mkFormState (formData st) (errors st) (showDatePicker st) b.

(** [updateFormData(field, value)]: the new value is stored; an error entry
    of the field that is truthy is set to [undefined]. *)
Definition updateFormData (st : FormState) (f : field) (value : value_of f)
  : FormState :=
  let formData' := set_field (formData st) f value in
  let errors' :=
    match err_of f with
    | Some ef =>
        match get_err (errors st) ef with
        | Some m => if truthy m then set_err (errors st) ef None
                    else errors st
        | None => errors st
        end
    | None => errors st
    end in
  mkFormState formData' errors' (showDatePicker st) (isLoading st).

(** Observable effects of the submit handler, in order. *)
Inductive event :=
| Alert (title msg : jstring)
| SetLoading (b : bool)
| SimulatedRequest (ms : Z)
| OnSubmit (d : FormData).

Definition msg_fix_errors :=
  js "Por favor, corrija os erros no formul" ++ [225] ++ js "rio.".
Definition msg_sent := js "Formul" ++ [225] ++ js "rio enviado com sucesso!".
Definition msg_send_failed :=
  js "Falha ao enviar formul" ++ [225] ++ js "rio. Tente novamente.".

(** [handleSubmit].  [onSubmit] is the optional callback prop; it returns
    [true] when it returns normally and [false] when it throws.
    [requestResolves] is the outcome of the awaited simulated request
    [new Promise(resolve => setTimeout(resolve, 2000))]. *)
Definition handleSubmit (todayYear : Z) (onSubmit : option (FormData -> bool))
  (requestResolves : bool) (st : FormState) : FormState * list event :=
  let '(ok, newErrors) := validateForm todayYear (formData st) in
  let st := with_errors st newErrors in
  if negb ok then (st, [Alert (js "Erro") msg_fix_errors])
  else
    (* try *)
    let '(body, threw) :=
      if requestResolves then
        match onSubmit with
        | Some cb => ([OnSubmit (formData st)], negb (cb (formData st)))
        | None => ([Alert (js "Sucesso") msg_sent], false)
        end
      else ([], true) in
    (* catch *)
    let handler := if threw then [Alert (js "Erro") msg_send_failed] else [] in
    (* finally *)
    (with_loading st false,
     [SetLoading true; SimulatedRequest 2000] ++ body ++ handler
       ++ [SetLoading false]).

End FormScreen.

(** ** [LoginScreen.tsx] *)
Module LoginScreen.

(** The [errors] state: both keys always present, [''] meaning no error. *)
Record LoginErrors := mkLoginErrors { err_email : jstring; err_password : jstring }.

Record LoginState := mkLoginState {
  email : jstring;
  password : jstring;
  showPassword : bool;
  isLoading : bool;
  errors : LoginErrors
}.

Definition initialState : LoginState :=
  mkLoginState [] [] false false (mkLoginErrors [] []).

Definition msg_email_required :=
  js "Email " ++ [233] ++ js " obrigat" ++ [243] ++ js "rio".
Definition msg_email_invalid := js "Email inv" ++ [225] ++ js "lido".
Definition msg_password_required :=
  js "Senha " ++ [233] ++ js " obrigat" ++ [243] ++ js "ria".
Definition msg_password_short :=
  js "Senha deve ter pelo menos 6 caracteres".

(** [validateForm] of the login screen, without its [setErrors]. *)
Definition validateForm (email password : jstring) : bool * LoginErrors :=
  let '(e_email, ok1) :=
    if negb (truthy (trim email)) then (msg_email_required, false)
    else if negb (validateEmail email) then (msg_email_invalid, false)
    else ([], true) in
  let '(e_password, ok2) :=
    if negb (truthy (trim password)) then (msg_password_required, false)
    else if Z.of_nat (List.length password) <? 6
    then (msg_password_short, false)
    else ([], true) in
  (ok1 && ok2, mkLoginErrors e_email e_password).

Inductive event :=
| Alert (title msg : jstring)
| SetLoading (b : bool)
| SimulatedRequest (ms : Z)
| OnLogin (email password : jstring).

Definition msg_logged_in := js "Login realizado com sucesso!".
Definition msg_login_failed := js "Falha no login. Tente novamente.".

(** [handleLogin]; [onLogin] returns [false] when it throws. *)
Definition handleLogin (onLogin : option (jstring -> jstring -> bool))
  (requestResolves : bool) (st : LoginState) : LoginState * list event :=
  let '(ok, newErrors) := validateForm (email st) (password st) in
  let st := mkLoginState (email st) (password st) (showPassword st)
              (isLoading st) newErrors in
  if negb ok then (st, [])
  else
    let '(body, threw) :=
      if requestResolves then
        match onLogin with
        | Some cb => ([OnLogin (email st) (password st)],
                      negb (cb (email st) (password st)))
        | None => ([Alert (js "Sucesso") msg_logged_in], false)
        end
      else ([], true) in
    let handler := if threw then [Alert (js "Erro") msg_login_failed] else [] in
    (mkLoginState (email st) (password st) (showPassword st) false newErrors,
     [SetLoading true; SimulatedRequest 2000] ++ body ++ handler
       ++ [SetLoading false]).

End LoginScreen.

(** ** States the sign-up screen can reach *)

(** [setShowDatePicker(b)] *)
Definition setShowDatePicker (st : FormScreen.FormState) (b : bool)
  : FormScreen.FormState :=
  FormScreen.mkFormState (FormScreen.formData st) (FormScreen.errors st) b
    (FormScreen.isLoading st).

(** The states produced from the initial one by the screen's handlers:
    field edits, submissions (at any clock year, with any callback and
    request outcome) and the date picker toggle. *)
Inductive reachable : FormScreen.FormState -> Prop :=
| reach_init (initialData : option FormScreen.PartialFormData)
    (now : FormScreen.Date) :
    reachable (FormScreen.initialState initialData now)
| reach_update (st : FormScreen.FormState) (f : FormScreen.field)
    (v : FormScreen.value_of f) :
    reachable st -> reachable (FormScreen.updateFormData st f v)
| reach_submit (st : FormScreen.FormState) (todayYear : Z)
    (onSubmit : option (FormScreen.FormData -> bool)) (requestResolves : bool) :
    reachable st ->
    reachable (fst (FormScreen.handleSubmit todayYear onSubmit requestResolves st))
| reach_picker (st : FormScreen.FormState) (b : bool) :
    reachable st -> reachable (setShowDatePicker st b).

(** ** Counting effects in a submission trace *)

Definition form_is_request (ev : FormScreen.event) : bool :=
  match ev with FormScreen.SimulatedRequest _ => true | _ => false end.

Definition form_is_callback (ev : FormScreen.event) : bool :=
  match ev with FormScreen.OnSubmit _ => true | _ => false end.

Definition login_is_request (ev : LoginScreen.event) : bool :=
  match ev with LoginScreen.SimulatedRequest _ => true | _ => false end.

Definition login_is_callback (ev : LoginScreen.event) : bool :=
  match ev with LoginScreen.OnLogin _ _ => true | _ => false end.

Definition count {A} (p : A -> bool) (l : list A) : nat := List.length (filter p l).

(** ** Per-field view of [FormScreen.validateForm] *)
Module FormScreenFacts.
Import FormScreen.

Definition all_errfields : list errfield :=
  [E_firstName; E_lastName; E_email; E_phone; E_birthDate; E_country; E_bio].

(** The message the [validateForm] block of one field writes, if any. *)
Definition rule (todayYear : Z) (d : FormData) (f : errfield) : option jstring :=
  match f with
  | E_firstName =>
      if negb (truthy (trim (firstName d))) then Some msg_firstName_required
      else if Z.of_nat (List.length (firstName d)) <? 2
      then Some msg_firstName_short else None
  | E_lastName =>
      if negb (truthy (trim (lastName d))) then Some msg_lastName_required
      else if Z.of_nat (List.length (lastName d)) <? 2
      then Some msg_lastName_short else None
  | E_email =>
      if negb (truthy (trim (email d))) then Some msg_email_required
      else if negb (validateEmail (email d)) then Some msg_email_invalid
      else None
  | E_phone =>
      if negb (truthy (trim (phone d))) then Some msg_phone_required
      else if negb (validatePhone (phone d)) then Some msg_phone_invalid
      else None
  | E_birthDate =>
      let age := todayYear - getFullYear (birthDate d) in
      if age <? 13 then Some msg_age_min
      else if 120 <? age then Some msg_age_invalid else None
  | E_country =>
      if negb (truthy (country d)) then Some msg_country_required else None
  | E_bio =>
      if 500 <? Z.of_nat (List.length (bio d)) then Some msg_bio_long else None
  end.

Definition errors_of (todayYear : Z) (d : FormData) : FormErrors :=
  mkFormErrors (rule todayYear d E_firstName) (rule todayYear d E_lastName)
    (rule todayYear d E_email) (rule todayYear d E_phone)
    (rule todayYear d E_birthDate) (rule todayYear d E_country)
    (rule todayYear d E_bio).

Definition is_none {A} (o : option A) : bool :=
  match o with None => true | Some _ => false end.

Definition all_none (e : FormErrors) : bool :=
  forallb (fun f => is_none (get_err e f)) all_errfields.

End FormScreenFacts.

(** ** Helpers and sample inputs for the properties *)

(** A substring accepted by a piece. *)
Definition piece_ok (p : piece) (g : jstring) : bool :=
  Nat.leb (pmin p) (List.length g) && forallb (cls p) g
  && match pmax p with Some m => Nat.leb (List.length g) m | None => true end.

Ltac zbool :=
  repeat match goal with
  | H : (_ || _)%bool = true |- _ => apply orb_true_iff in H as [H|H]
  | H : (_ && _)%bool = true |- _ =>
      let H' := fresh H in apply andb_true_iff in H as [H H']
  | H : (_ =? _) = true |- _ => apply Z.eqb_eq in H
  | H : (_ <=? _) = true |- _ => apply Z.leb_le in H
  end.

(** A filled-in sign-up form. *)
Definition sample_form : FormScreen.FormData :=
  FormScreen.mkFormData (js "Ana") (js "Silva") (js "ana@exemplo.com")
    (js "(11) 98765-4321") (FormScreen.mkDate 2000 5 17) [] (js "BR") []
    false true.

Ltac concrete :=
  first [ reflexivity | lia | (vm_compute; discriminate)
        | (vm_compute; intro; discriminate) | (cbn; lia)
        | (vm_compute; lia) | (vm_compute; reflexivity) ].

(** The failure condition of each field's rule, as [validateForm] tests it. *)
Definition form_field_fails (todayYear : Z) (d : FormScreen.FormData)
  (f : FormScreen.errfield) : bool :=
  match f with
  | FormScreen.E_firstName =>
      negb (truthy (trim (FormScreen.firstName d)))
      || (Z.of_nat (List.length (FormScreen.firstName d)) <? 2)
  | FormScreen.E_lastName =>
      negb (truthy (trim (FormScreen.lastName d)))
      || (Z.of_nat (List.length (FormScreen.lastName d)) <? 2)
  | FormScreen.E_email =>
      negb (truthy (trim (FormScreen.email d)))
      || negb (validateEmail (FormScreen.email d))
  | FormScreen.E_phone =>
      negb (truthy (trim (FormScreen.phone d)))
      || negb (validatePhone (FormScreen.phone d))
  | FormScreen.E_birthDate =>
      let age := todayYear - FormScreen.getFullYear (FormScreen.birthDate d) in
      (age <? 13) || (120 <? age)
  | FormScreen.E_country => negb (truthy (FormScreen.country d))
  | FormScreen.E_bio => 500 <? Z.of_nat (List.length (FormScreen.bio d))
  end.

Definition login_email_fails (e : jstring) : bool :=
  negb (truthy (trim e)) || negb (validateEmail e).

Definition login_password_fails (p : jstring) : bool :=
  negb (truthy (trim p)) || (Z.of_nat (List.length p) <? 6).

Ltac nonempty_msg := vm_compute; intro; discriminate.

Definition bad_email_form : FormScreen.FormData :=
  FormScreen.set_field sample_form FormScreen.F_email (js "not-an-email").

Definition born_2013 : FormScreen.FormData :=
  FormScreen.set_field sample_form FormScreen.F_birthDate
    (FormScreen.mkDate 2013 6 1).

(** Where an age falls relative to the bounds [13, 120]. *)
Definition age_class (age : Z) : bool * bool := (age <? 13, 120 <? age).

(** Every error entry of a reachable state is a non-empty message. *)
Definition errors_wf (e : FormScreen.FormErrors) : Prop :=
  forall f m, FormScreen.get_err e f = Some m -> m <> [].

(** Calls of the callback prop one submission makes: one when the prop is
    given and the request resolves. *)
Definition callback_calls {A} (requestResolves : bool) (cb : option A) : nat :=
  if requestResolves then match cb with Some _ => 1%nat | None => 0%nat end
  else 0%nat.

(** A digit string in the local phone layout: a two-digit area code, a
    four- or five-digit prefix and a four-digit suffix. *)
Definition local_format (digits : jstring) : Prop :=
  exists area prefix suffix,
    digits = area ++ prefix ++ suffix
    /\ List.length area = 2%nat
    /\ (List.length prefix = 4%nat \/ List.length prefix = 5%nat)
    /\ List.length suffix = 4%nat.

(** ** Input handlers of [FormScreen] *)

(** The phone field's [onChangeText]:
    [(text) => updateFormData('phone', formatPhone(text))]. *)
Definition onChangePhone (st : FormScreen.FormState) (text : jstring)
  : FormScreen.FormState :=
  FormScreen.updateFormData st FormScreen.F_phone (formatPhone text).


(** Initial data that gives every field of [d]. *)
Definition full_partial (d : FormScreen.FormData) : FormScreen.PartialFormData :=
  FormScreen.mkPartialFormData (Some (FormScreen.firstName d))
    (Some (FormScreen.lastName d)) (Some (FormScreen.email d))
    (Some (FormScreen.phone d)) (Some (FormScreen.birthDate d))
    (Some (FormScreen.gender d)) (Some (FormScreen.country d))
    (Some (FormScreen.bio d)) (Some (FormScreen.notifications d))
    (Some (FormScreen.newsletter d)).

(** ** [DashboardScreen.tsx] *)
Module DashboardScreen.

(** [String(n)] of an integer number: its decimal digits, with a leading
    [-] when negative. *)
Definition num_to_string (n : Z) : jstring :=
  js (NilEmpty.string_of_int (Z.to_int n)).

Definition suffix_m : jstring := js "m atr" ++ [225] ++ js "s".
Definition suffix_h : jstring := js "h atr" ++ [225] ++ js "s".
Definition suffix_d : jstring := js "d atr" ++ [225] ++ js "s".

(** [formatTimeAgo(date)], with [now] and [date] given by their time values
    ([getTime()], integer milliseconds).  [Math.floor(a / b)] of an integer
    [a] by a positive integer [b] is the floor quotient [a / b] on [Z]: the
    correctly rounded double quotient cannot cross an integer while
    [|a| + b < 2^53], which holds for any two dates less than about 285,000
    years apart. *)
Definition formatTimeAgo (now date : Z) : jstring :=
  let diffInMinutes := (now - date) / (1000 * 60) in
  if diffInMinutes <? 60 then num_to_string diffInMinutes ++ suffix_m
  else if diffInMinutes <? 1440
  then num_to_string (diffInMinutes / 60) ++ suffix_h
  else num_to_string (diffInMinutes / 1440) ++ suffix_d.

End DashboardScreen.

(** * Properties *)

(** ** Strings and the regex matcher *)

Lemma drop_ws_nil (s : jstring) : drop_ws s = [] <-> forallb is_ws s = true.
Proof.
  induction s as [|c s IH]; simpl; [tauto|].
  destruct (is_ws c); simpl; [exact IH|].
  split; discriminate.
Qed.

Lemma drop_ws_head (s : jstring) :
  drop_ws s = [] \/ exists c t, drop_ws s = c :: t /\ is_ws c = false.
Proof.
  induction s as [|c s IH]; simpl; [auto|].
  destruct (is_ws c) eqn:E; [exact IH|eauto].
Qed.

Lemma forallb_rev {A} (f : A -> bool) (l : list A) :
  forallb f (rev l) = forallb f l.
Proof.
  induction l as [|x l IH]; simpl; [reflexivity|].
  rewrite forallb_app, IH; simpl.
  destruct (f x), (forallb f l); reflexivity.
Qed.

(** [!s.trim()] holds exactly for strings made of white space only. *)
Lemma trim_falsy (s : jstring) :
  truthy (trim s) = false <-> forallb is_ws s = true.
Proof.
  unfold trim.
  assert (Hnil : forall l : jstring, truthy l = false <-> l = []).
  { intros [|x l]; simpl; split; congruence. }
  rewrite Hnil.
  split.
  - intro H. apply (f_equal (@rev Z)) in H.
    rewrite rev_involutive in H; simpl in H.
    apply drop_ws_nil in H. rewrite forallb_rev in H.
    destruct (drop_ws_head s) as [H0 | (c & t & H0 & Hc)].
    + apply drop_ws_nil; exact H0.
    + rewrite H0 in H; simpl in H; rewrite Hc in H; discriminate.
  - intro H. apply drop_ws_nil in H. rewrite H. reflexivity.
Qed.

Lemma try_down_none {A} (n : nat) (f : nat -> option A) :
  try_down n f = None <-> forall k, (k <= n)%nat -> f k = None.
Proof.
  induction n as [|n IH]; simpl.
  - destruct (f 0%nat) eqn:E; split; intro H.
    + discriminate.
    + specialize (H 0%nat (le_n 0)); congruence.
    + intros k Hk; assert (k = 0%nat) by lia; subst; exact E.
    + reflexivity.
  - destruct (f (S n)) eqn:E.
    + split; [discriminate|]. intro H. specialize (H (S n) (le_n _)); congruence.
    + rewrite IH. split; intros H k Hk.
      * destruct (Nat.eq_dec k (S n)); [subst; exact E|apply H; lia].
      * apply H; lia.
Qed.

Lemma try_down_some {A} (n : nat) (f : nat -> option A) (a : A) :
  try_down n f = Some a -> exists k, (k <= n)%nat /\ f k = Some a.
Proof.
  induction n as [|n IH]; simpl.
  - destruct (f 0%nat) eqn:E; intro H; [inversion H; subst; eauto|discriminate].
  - destruct (f (S n)) eqn:E; intro H.
    + inversion H; subst; eauto.
    + destruct (IH H) as (k & Hk & Hf); exists k; split; [lia|exact Hf].
Qed.

(** Soundness of the matcher: the captures split the input and each is
    accepted by its piece. *)
Lemma rx_sound (ps : list piece) (s : jstring) (gs : list jstring) :
  rx ps s = Some gs ->
  s = List.concat gs /\ Forall2 (fun p g => piece_ok p g = true) ps gs.
Proof.
  revert s gs; induction ps as [|p ps IH]; intros s gs H; simpl in H.
  - destruct s; inversion H; subst; simpl; auto.
  - apply try_down_some in H as (k & Hk & H).
    destruct (Nat.leb (pmin p) k && forallb (cls p) (firstn k s)) eqn:E;
      [|discriminate].
    apply andb_true_iff in E as [E1 E2].
    destruct (rx ps (skipn k s)) as [gs'|] eqn:Er; simpl in H; [|discriminate].
    inversion H; subst gs; clear H.
    destruct (IH _ _ Er) as [Hc Hf].
    assert (Hlen : List.length (firstn k s) = k).
    { apply firstn_length_le. destruct (pmax p); lia. }
    split.
    + simpl; rewrite <- Hc, firstn_skipn; reflexivity.
    + constructor; [|exact Hf].
      unfold piece_ok; rewrite Hlen, E1, E2; simpl.
      destruct (pmax p); [apply Nat.leb_le; lia|reflexivity].
Qed.

(** Completeness of the matcher: any split accepted piecewise is found. *)
Lemma rx_complete (ps : list piece) (gs : list jstring) :
  Forall2 (fun p g => piece_ok p g = true) ps gs ->
  rx ps (List.concat gs) <> None.
Proof.
  induction 1 as [|p g ps gs Hp Hrest IH]; simpl; [discriminate|].
  unfold piece_ok in Hp.
  apply andb_true_iff in Hp as [Hp Hmax]; apply andb_true_iff in Hp as [Hmin Hcls].
  rewrite try_down_none; intro Hall.
  assert (Hk : (List.length g <= match pmax p with
                       | Some m => Nat.min m (List.length (g ++ List.concat gs))
                       | None => List.length (g ++ List.concat gs) end)%nat).
  { rewrite length_app; destruct (pmax p);
      [apply Nat.leb_le in Hmax; lia|lia]. }
  specialize (Hall _ Hk).
  rewrite firstn_app, firstn_all, Nat.sub_diag, firstn_O, app_nil_r,
          skipn_app, skipn_all, Nat.sub_diag, skipn_O in Hall; simpl in Hall.
  rewrite Hmin, Hcls in Hall; simpl in Hall.
  destruct (rx ps (List.concat gs)); [discriminate|contradiction].
Qed.

Lemma forallb_firstn {A} (f : A -> bool) (n : nat) (l : list A) :
  forallb f l = true -> forallb f (firstn n l) = true.
Proof.
  intro H; rewrite <- (firstn_skipn n l), forallb_app in H.
  apply andb_true_iff in H; tauto.
Qed.

Lemma forallb_skipn {A} (f : A -> bool) (n : nat) (l : list A) :
  forallb f l = true -> forallb f (skipn n l) = true.
Proof.
  intro H; rewrite <- (firstn_skipn n l), forallb_app in H.
  apply andb_true_iff in H; tauto.
Qed.

Lemma piece_ok_bounded (cl : Z -> bool) (mn mx : nat) (g : jstring) :
  piece_ok (Piece cl mn (Some mx)) g = true <->
  (mn <= List.length g <= mx)%nat /\ forallb cl g = true.
Proof.
  unfold piece_ok; simpl.
  rewrite !andb_true_iff, !Nat.leb_le; tauto.
Qed.

Lemma strip_digits (s : jstring) : forallb is_digit (strip_non_digits s) = true.
Proof.
  unfold strip_non_digits; apply forallb_forall; intros x Hx.
  apply filter_In in Hx; tauto.
Qed.

(** A class that contains no digit accepts no non-empty digit string. *)
Lemma no_digit_class (cl : Z -> bool) (g : jstring) :
  (forall x, cl x = true -> is_digit x = false) ->
  forallb cl g = true -> forallb is_digit g = true -> g = [].
Proof.
  intros Hc H1 H2; destruct g as [|x g]; [reflexivity|].
  simpl in H1, H2; apply andb_true_iff in H1 as [H1 _];
    apply andb_true_iff in H2 as [H2 _].
  rewrite (Hc x H1) in H2; discriminate.
Qed.

Lemma ws_not_digit (x : Z) : is_ws x = true -> is_digit x = false.
Proof.
  unfold is_ws, is_digit; intro H.
  destruct (48 <=? x) eqn:E1, (x <=? 57) eqn:E2; try reflexivity.
  apply Z.leb_le in E1; apply Z.leb_le in E2.
  zbool; lia.
Qed.

Lemma lit_not_digit (c x : Z) : (c < 48 \/ 57 < c) -> lit c x = true ->
  is_digit x = false.
Proof.
  unfold lit, is_digit; intros Hc H; apply Z.eqb_eq in H; subst.
  destruct (48 <=? x) eqn:E1, (x <=? 57) eqn:E2; try reflexivity.
  apply Z.leb_le in E1; apply Z.leb_le in E2; lia.
Qed.

Lemma sep_not_digit (x : Z) : (is_ws x || (x =? 45))%bool = true ->
  is_digit x = false.
Proof.
  intro H; apply orb_true_iff in H as [H|H]; [now apply ws_not_digit|].
  apply (lit_not_digit 45); [lia|unfold lit; rewrite Z.eqb_sym; exact H].
Qed.

(** [validatePhone] accepts exactly the strings with 10 or 11 digits. *)
Lemma validatePhone_digits (s : jstring) :
  validatePhone s = true <->
  List.length (strip_non_digits s) = 10%nat \/
  List.length (strip_non_digits s) = 11%nat.
Proof.
  unfold validatePhone, rx_test.
  pose proof (strip_digits s) as Hd.
  set (c := strip_non_digits s) in *.
  split.
  - destruct (rx phoneRegex c) as [gs|] eqn:Hr; [intros _|discriminate].
    apply rx_sound in Hr as [Hc Hf].
    inversion Hf as [|p1 g1 ? ? H1 Hf1]; subst.
    inversion Hf1 as [|p2 g2 ? ? H2 Hf2]; subst.
    inversion Hf2 as [|p3 g3 ? ? H3 Hf3]; subst.
    inversion Hf3 as [|p4 g4 ? ? H4 Hf4]; subst.
    inversion Hf4 as [|p5 g5 ? ? H5 Hf5]; subst.
    inversion Hf5 as [|p6 g6 ? ? H6 Hf6]; subst.
    inversion Hf6 as [|p7 g7 ? ? H7 Hf7]; subst.
    inversion Hf7; subst.
    apply piece_ok_bounded in H1, H2, H3, H4, H5, H6, H7.
    rewrite Hc in Hd |- *; simpl in Hd |- *.
    rewrite app_nil_r in Hd |- *.
    rewrite !forallb_app in Hd; zbool.
    assert (g1 = []) by (eapply no_digit_class; [|apply (proj2 H1)|eauto];
                         intros x; apply lit_not_digit; lia).
    assert (g3 = []) by (eapply no_digit_class; [|apply (proj2 H3)|eauto];
                         intros x; apply lit_not_digit; lia).
    assert (g4 = []) by (eapply no_digit_class; [|apply (proj2 H4)|eauto];
                         exact sep_not_digit).
    assert (g6 = []) by (eapply no_digit_class; [|apply (proj2 H6)|eauto];
                         exact sep_not_digit).
    subst; rewrite !length_app; simpl; lia.
  - intro HL.
    destruct (Nat.eq_dec (List.length c) 10) as [H10|H10].
    + assert (Hc : c = List.concat [[]; firstn 2 c; []; []; firstn 4 (skipn 2 c);
                                     []; skipn 6 c]).
      { simpl; rewrite app_nil_r, <- (firstn_skipn 2 c) at 1.
        f_equal; rewrite <- (firstn_skipn 4 (skipn 2 c)) at 1.
        f_equal; rewrite skipn_skipn; reflexivity. }
      rewrite Hc; destruct (rx _ _) eqn:Hr; [reflexivity|].
      exfalso; revert Hr; apply rx_complete.
      repeat constructor; apply piece_ok_bounded;
        rewrite ?length_firstn, ?length_skipn;
        (split; [lia|auto using forallb_firstn, forallb_skipn]).
    + assert (H11 : List.length c = 11%nat) by lia.
      assert (Hc : c = List.concat [[]; firstn 2 c; []; []; firstn 5 (skipn 2 c);
                                     []; skipn 7 c]).
      { simpl; rewrite app_nil_r, <- (firstn_skipn 2 c) at 1.
        f_equal; rewrite <- (firstn_skipn 5 (skipn 2 c)) at 1.
        f_equal; rewrite skipn_skipn; reflexivity. }
      rewrite Hc; destruct (rx _ _) eqn:Hr; [reflexivity|].
      exfalso; revert Hr; apply rx_complete.
      repeat constructor; apply piece_ok_bounded;
        rewrite ?length_firstn, ?length_skipn;
        (split; [lia|auto using forallb_firstn, forallb_skipn]).
Qed.

(** ** Per-field view of [FormScreen.validateForm] *)
Module FormScreenProofs.
Import FormScreen FormScreenFacts.

(** The blocks of [validateForm] do not interfere: each field's entry is
    written by its own block only, and the flag is cleared by any block. *)
Lemma validateForm_fields (todayYear : Z) (d : FormData) :
  validateForm todayYear d =
  (all_none (errors_of todayYear d), errors_of todayYear d).
Proof.
  unfold validateForm, errors_of, rule, all_none, fail_with.
  repeat match goal with
         | |- context [if ?c then _ else _] => destruct c
         end; reflexivity.
Qed.

Lemma get_errors_of (todayYear : Z) (d : FormData) (f : errfield) :
  get_err (errors_of todayYear d) f = rule todayYear d f.
Proof. destruct f; reflexivity. Qed.

End FormScreenProofs.

(** ** Lemmas on the validation helpers *)

Lemma trim_truthy_of (s : jstring) (x : Z) :
  In x s -> is_ws x = false -> truthy (trim s) = true.
Proof.
  intros Hin Hx.
  destruct (truthy (trim s)) eqn:E; [reflexivity|].
  apply trim_falsy in E. rewrite forallb_forall in E.
  rewrite (E x Hin) in Hx; discriminate.
Qed.

(** A string accepted by [validateEmail] is not blank. *)
Lemma validateEmail_not_blank (e : jstring) :
  validateEmail e = true -> truthy (trim e) = true.
Proof.
  unfold validateEmail, rx_test.
  destruct (rx emailRegex e) as [gs|] eqn:Hr; [intros _|discriminate].
  apply rx_sound in Hr as [Hc Hf].
  inversion Hf as [|p1 g1 ? ? H1 _]; subst.
  unfold piece_ok in H1; simpl in H1.
  destruct g1 as [|x g1]; [discriminate|].
  simpl in H1; unfold not_ws_at in H1.
  apply (trim_truthy_of _ x).
  - simpl; left; reflexivity.
  - destruct (is_ws x); [discriminate|reflexivity].
Qed.

(** A string accepted by [validatePhone] is not blank. *)
Lemma validatePhone_not_blank (p : jstring) :
  validatePhone p = true -> truthy (trim p) = true.
Proof.
  intro H; apply validatePhone_digits in H.
  pose proof (strip_digits p) as Hd.
  unfold strip_non_digits in *.
  destruct (filter is_digit p) as [|x l] eqn:E; [simpl in H; lia|].
  assert (Hx : In x (filter is_digit p)) by (rewrite E; left; reflexivity).
  apply filter_In in Hx as [Hin Hdig].
  apply (trim_truthy_of _ x Hin).
  destruct (is_ws x) eqn:Hw; [|reflexivity].
  rewrite (ws_not_digit x Hw) in Hdig; discriminate.
Qed.

Lemma truthy_nonnil (s : jstring) : truthy s = true <-> s <> [].
Proof. destruct s; simpl; split; congruence. Qed.

Lemma FormScreen_validateForm_empty (todayYear : Z) (d : FormScreen.FormData) :
  fst (FormScreen.validateForm todayYear d) = true <->
  snd (FormScreen.validateForm todayYear d) = FormScreen.noErrors.
Proof.
  revert todayYear d.
  intros y d; rewrite FormScreenProofs.validateForm_fields; cbn [fst snd].
  unfold FormScreenFacts.all_none, FormScreenFacts.errors_of.
  destruct (FormScreenFacts.rule y d FormScreen.E_firstName),
           (FormScreenFacts.rule y d FormScreen.E_lastName),
           (FormScreenFacts.rule y d FormScreen.E_email),
           (FormScreenFacts.rule y d FormScreen.E_phone),
           (FormScreenFacts.rule y d FormScreen.E_birthDate),
           (FormScreenFacts.rule y d FormScreen.E_country),
           (FormScreenFacts.rule y d FormScreen.E_bio);
    unfold FormScreen.noErrors; simpl; split; intro H;
    try reflexivity; discriminate.
Qed.

Lemma LoginScreen_validateForm_empty (e p : jstring) :
  fst (LoginScreen.validateForm e p) = true <->
  snd (LoginScreen.validateForm e p) = LoginScreen.mkLoginErrors [] [].
Proof.
  unfold LoginScreen.validateForm.
  repeat match goal with
         | |- context [if ?c then _ else _] => destruct c
         end; simpl; split; intro H; try reflexivity; discriminate.
Qed.

(** * Claims *)

(** ** C1 *)

(** C1 (as amended).  When every field meets its rule, both [validateForm]
    functions report valid with no error; the form's validity flag is true
    exactly when its error object is empty, and the login's exactly when
    both of its messages are empty.  The login password rule is: non-empty
    after trim and at least 6 code units long. *)
Theorem C1_validate_all_valid :
  (forall (todayYear : Z) (d : FormScreen.FormData),
     trim (FormScreen.firstName d) <> [] ->
     (2 <= List.length (FormScreen.firstName d))%nat ->
     trim (FormScreen.lastName d) <> [] ->
     (2 <= List.length (FormScreen.lastName d))%nat ->
     validateEmail (FormScreen.email d) = true ->
     validatePhone (FormScreen.phone d) = true ->
     13 <= todayYear - FormScreen.getFullYear (FormScreen.birthDate d) <= 120 ->
     FormScreen.country d <> [] ->
     (List.length (FormScreen.bio d) <= 500)%nat ->
     FormScreen.validateForm todayYear d = (true, FormScreen.noErrors))
  /\ (forall (todayYear : Z) (d : FormScreen.FormData),
       fst (FormScreen.validateForm todayYear d) = true <->
       snd (FormScreen.validateForm todayYear d) = FormScreen.noErrors)
  /\ (forall e p : jstring,
       validateEmail e = true ->
       trim p <> [] ->
       (6 <= List.length p)%nat ->
       LoginScreen.validateForm e p = (true, LoginScreen.mkLoginErrors [] []))
  /\ (forall e p : jstring,
       fst (LoginScreen.validateForm e p) = true <->
       snd (LoginScreen.validateForm e p) = LoginScreen.mkLoginErrors [] []).
Proof.
  split; [|split; [|split]].
  - intros y d Hf1 Hf2 Hl1 Hl2 He Hp Ha Hc Hb.
    rewrite FormScreenProofs.validateForm_fields.
    unfold FormScreenFacts.errors_of, FormScreenFacts.rule.
    apply truthy_nonnil in Hf1, Hl1, Hc.
    rewrite Hf1, Hl1, Hc, He, Hp, (validateEmail_not_blank _ He),
            (validatePhone_not_blank _ Hp).
    replace (Z.of_nat (List.length (FormScreen.firstName d)) <? 2) with false
      by (symmetry; apply Z.ltb_ge; lia).
    replace (Z.of_nat (List.length (FormScreen.lastName d)) <? 2) with false
      by (symmetry; apply Z.ltb_ge; lia).
    replace (500 <? Z.of_nat (List.length (FormScreen.bio d))) with false
      by (symmetry; apply Z.ltb_ge; lia).
    replace (y - FormScreen.getFullYear (FormScreen.birthDate d) <? 13)
      with false by (symmetry; apply Z.ltb_ge; lia).
    replace (120 <? y - FormScreen.getFullYear (FormScreen.birthDate d))
      with false by (symmetry; apply Z.ltb_ge; lia).
    reflexivity.
  - exact FormScreen_validateForm_empty.
  - intros e p He Hp Hl.
    unfold LoginScreen.validateForm.
    apply truthy_nonnil in Hp.
    rewrite Hp, He, (validateEmail_not_blank _ He).
    replace (Z.of_nat (List.length p) <? 6) with false
      by (symmetry; apply Z.ltb_ge; lia).
    reflexivity.
  - exact LoginScreen_validateForm_empty.
Qed.

(** Witness for C1 on concrete inputs. *)
Lemma C1_witness :
  FormScreen.validateForm 2026 sample_form = (true, FormScreen.noErrors) /\
  LoginScreen.validateForm (js "ana@exemplo.com") (js "abcdef")
  = (true, LoginScreen.mkLoginErrors [] []).
Proof.
  split.
  - apply (proj1 C1_validate_all_valid); concrete.
  - apply (proj1 (proj2 (proj2 C1_validate_all_valid))); concrete.
Defined.

(** C1 as stated fails: a password of six spaces has length 6 and a valid
    email, yet the login [validateForm] rejects it ([!password.trim()]). *)
Lemma C1_counterexample :
  validateEmail (js "ana@exemplo.com") = true /\
  List.length (js "      ") = 6%nat /\
  LoginScreen.validateForm (js "ana@exemplo.com") (js "      ")
  = (false, LoginScreen.mkLoginErrors [] LoginScreen.msg_password_required).
Proof. vm_compute; repeat split. Qed.

(** ** C2 *)

(** C2: after [validateForm], a field has an entry exactly when it fails its
    rule, and the entry is then a non-empty message; the other fields have
    no entry.  On the login screen, whose error object keeps both keys, an
    absent entry is the empty message [''] and a present one is non-empty. *)
Theorem C2_errors_iff_fails :
  (forall (todayYear : Z) (d : FormScreen.FormData) (f : FormScreen.errfield),
     (form_field_fails todayYear d f = true ->
      exists m, FormScreen.get_err (snd (FormScreen.validateForm todayYear d)) f
                = Some m /\ m <> [])
     /\ (form_field_fails todayYear d f = false ->
         FormScreen.get_err (snd (FormScreen.validateForm todayYear d)) f = None))
  /\ (forall e p : jstring,
       let errs := snd (LoginScreen.validateForm e p) in
       (login_email_fails e = true <-> LoginScreen.err_email errs <> [])
       /\ (login_password_fails p = true <-> LoginScreen.err_password errs <> [])).
Proof.
  split.
  - intros y d f.
    rewrite FormScreenProofs.validateForm_fields; cbn [snd].
    rewrite FormScreenProofs.get_errors_of.
    destruct f; unfold form_field_fails, FormScreenFacts.rule;
      repeat match goal with
             | |- context [if ?c then _ else _] => destruct c
             end; simpl;
      split; intro H; try discriminate; try reflexivity;
      eexists; (split; [reflexivity|nonempty_msg]).
  - intros e p errs; subst errs.
    unfold LoginScreen.validateForm, login_email_fails, login_password_fails.
    repeat match goal with
           | |- context [if ?c then _ else _] => destruct c
           end; simpl;
      repeat split; intro H; try discriminate; try nonempty_msg;
      try (exfalso; apply H; reflexivity).
Qed.

(** Witness for C2: an invalid email is flagged, the valid phone is not;
    a short login password is flagged. *)
Lemma C2_witness :
  (exists m, FormScreen.get_err (snd (FormScreen.validateForm 2026 bad_email_form))
               FormScreen.E_email = Some m /\ m <> [])
  /\ FormScreen.get_err (snd (FormScreen.validateForm 2026 bad_email_form))
       FormScreen.E_phone = None
  /\ LoginScreen.err_password (snd (LoginScreen.validateForm (js "a@b.co") (js "abc")))
     <> [].
Proof.
  split; [|split].
  - apply (proj1 (proj1 C2_errors_iff_fails 2026 bad_email_form
                    FormScreen.E_email)); concrete.
  - apply (proj2 (proj1 C2_errors_iff_fails 2026 bad_email_form
                    FormScreen.E_phone)); concrete.
  - apply (proj2 (proj2 C2_errors_iff_fails (js "a@b.co") (js "abc"))); concrete.
Defined.

(** ** C3 *)

(** C3 as stated fails: [validateForm] reads the clock ([new Date()]); the
    same form data validated in 2025 and in 2026 gives different errors. *)
Lemma C3_counterexample :
  FormScreen.validateForm 2025 born_2013 <> FormScreen.validateForm 2026 born_2013.
Proof. vm_compute; discriminate. Qed.

(** C3 (as amended).  [validateForm] is a function of the form data and the
    current year only.  The current year affects the birth-date entry alone,
    and only through the age's position relative to [13, 120]: two calls
    on unchanged form data whose computed ages fall in the same band (in
    particular, two calls in the same year) give identical results. *)
Theorem C3_validate_depends_on_year :
  (forall (y1 y2 : Z) (d : FormScreen.FormData) (f : FormScreen.errfield),
     f <> FormScreen.E_birthDate ->
     FormScreen.get_err (snd (FormScreen.validateForm y1 d)) f
     = FormScreen.get_err (snd (FormScreen.validateForm y2 d)) f)
  /\ (forall (y1 y2 : Z) (d : FormScreen.FormData),
       let b := FormScreen.getFullYear (FormScreen.birthDate d) in
       age_class (y1 - b) = age_class (y2 - b) ->
       FormScreen.validateForm y1 d = FormScreen.validateForm y2 d).
Proof.
  split.
  - intros y1 y2 d f Hf.
    rewrite !FormScreenProofs.validateForm_fields; cbn [snd].
    rewrite !FormScreenProofs.get_errors_of.
    destruct f; try reflexivity; contradiction.
  - intros y1 y2 d b Hc; unfold age_class in Hc; injection Hc as H1 H2.
    rewrite !FormScreenProofs.validateForm_fields.
    assert (E : FormScreenFacts.errors_of y1 d = FormScreenFacts.errors_of y2 d).
    { unfold FormScreenFacts.errors_of; cbn [FormScreenFacts.rule].
      fold b; rewrite H1, H2; reflexivity. }
    rewrite E; reflexivity.
Qed.

(** Witness for C3: validating in 2026 and in 2030 agrees for a birth year
    of 2000. *)
Lemma C3_witness :
  FormScreen.validateForm 2026 sample_form = FormScreen.validateForm 2030 sample_form.
Proof. apply (proj2 C3_validate_depends_on_year); concrete. Defined.

(** ** C4 *)

Lemma get_set_err (e : FormScreen.FormErrors) (f g : FormScreen.errfield)
  (x : option jstring) :
  (g = f /\ FormScreen.get_err (FormScreen.set_err e f x) g = x)
  \/ (g <> f /\ FormScreen.get_err (FormScreen.set_err e f x) g
               = FormScreen.get_err e g).
Proof.
  destruct e; destruct f, g; simpl;
    first [left; split; reflexivity | right; split; [discriminate|reflexivity]].
Qed.

Lemma validateForm_wf (todayYear : Z) (d : FormScreen.FormData) :
  errors_wf (snd (FormScreen.validateForm todayYear d)).
Proof.
  intros f m.
  rewrite FormScreenProofs.validateForm_fields; cbn [snd].
  rewrite FormScreenProofs.get_errors_of.
  destruct f; unfold FormScreenFacts.rule;
    repeat match goal with
           | |- context [if ?c then _ else _] => destruct c
           end; intro H; inversion H; subst; nonempty_msg.
Qed.

Lemma reachable_wf (st : FormScreen.FormState) :
  reachable st -> errors_wf (FormScreen.errors st).
Proof.
  induction 1 as [idata now|st f v _ IH|st y cb r _ IH|st b _ IH].
  - intros f m H; destruct f; discriminate.
  - unfold FormScreen.updateFormData; cbn [FormScreen.errors].
    destruct (FormScreen.err_of f) as [ef|]; [|exact IH].
    destruct (FormScreen.get_err (FormScreen.errors st) ef) as [m0|] eqn:E;
      [|exact IH].
    destruct (truthy m0); [|exact IH].
    intros g m Hg.
    destruct (get_set_err (FormScreen.errors st) ef g None) as [[-> Hs]|[_ Hs]];
      rewrite Hs in Hg; [discriminate|exact (IH _ _ Hg)].
  - unfold FormScreen.handleSubmit.
    destruct (FormScreen.validateForm y (FormScreen.formData st)) as [ok e] eqn:Ev.
    pose proof (validateForm_wf y (FormScreen.formData st)) as W.
    rewrite Ev in W; cbn [snd] in W.
    destruct ok; simpl; [|exact W].
    destruct r; [destruct cb|]; exact W.
  - exact IH.
Qed.

Lemma get_set_field (d : FormScreen.FormData) (f : FormScreen.field)
  (v : FormScreen.value_of f) :
  FormScreen.get_field (FormScreen.set_field d f v) f = v.
Proof. destruct d, f; reflexivity. Qed.

Lemma get_set_field_other (d : FormScreen.FormData) (f g : FormScreen.field)
  (v : FormScreen.value_of f) :
  g <> f ->
  FormScreen.get_field (FormScreen.set_field d f v) g = FormScreen.get_field d g.
Proof. destruct d, f, g; intro H; try reflexivity; contradiction. Qed.

(** C4: in every reachable state, [updateFormData(f, v)] stores [v] for [f]
    and leaves every other field's value as it was; it removes the error
    entry of [f] (sets it to [undefined]) and leaves every other error
    entry untouched; the loading and date-picker flags are unchanged (no
    validation is run). *)
Theorem C4_updateFormData_frame :
  forall (st : FormScreen.FormState) (f : FormScreen.field)
         (v : FormScreen.value_of f),
  reachable st ->
  let st' := FormScreen.updateFormData st f v in
  FormScreen.get_field (FormScreen.formData st') f = v
  /\ (forall g, g <> f ->
        FormScreen.get_field (FormScreen.formData st') g
        = FormScreen.get_field (FormScreen.formData st) g)
  /\ (forall ef, FormScreen.err_of f = Some ef ->
        FormScreen.get_err (FormScreen.errors st') ef = None)
  /\ (forall ef, FormScreen.err_of f <> Some ef ->
        FormScreen.get_err (FormScreen.errors st') ef
        = FormScreen.get_err (FormScreen.errors st) ef)
  /\ FormScreen.isLoading st' = FormScreen.isLoading st
  /\ FormScreen.showDatePicker st' = FormScreen.showDatePicker st.
Proof.
  intros st f v Hr st'; subst st'.
  pose proof (reachable_wf st Hr) as W.
  unfold FormScreen.updateFormData; cbn [FormScreen.formData FormScreen.errors
    FormScreen.isLoading FormScreen.showDatePicker].
  split; [apply get_set_field|].
  split; [intros g Hg; apply get_set_field_other; exact Hg|].
  split; [|split; [|split; reflexivity]].
  - intros ef Hf; rewrite Hf.
    destruct (FormScreen.get_err (FormScreen.errors st) ef) as [m|] eqn:E;
      [|exact E].
    destruct (truthy m) eqn:T.
    + destruct (get_set_err (FormScreen.errors st) ef ef None) as [[_ H]|[H _]];
        [exact H|contradiction].
    + apply W in E; destruct m; [contradiction|discriminate].
  - intros ef Hf.
    destruct (FormScreen.err_of f) as [ef'|]; [|reflexivity].
    destruct (FormScreen.get_err (FormScreen.errors st) ef'); [|reflexivity].
    destruct (truthy j); [|reflexivity].
    destruct (get_set_err (FormScreen.errors st) ef' ef None) as [[-> _]|[_ H]];
      [contradiction|exact H].
Qed.

(** Witness for C4: editing the email of a form whose email was flagged. *)
Lemma C4_witness :
  let st := fst (FormScreen.handleSubmit 2026 None true
                   (FormScreen.mkFormState bad_email_form FormScreen.noErrors
                      false false)) in
  FormScreen.get_err
    (FormScreen.errors (FormScreen.updateFormData st FormScreen.F_email
                          (js "ana@exemplo.com"))) FormScreen.E_email = None.
Proof.
  intro st.
  apply (C4_updateFormData_frame st FormScreen.F_email (js "ana@exemplo.com")).
  - apply reach_submit.
    exact (reach_init (Some (FormScreen.mkPartialFormData
      (Some (js "Ana")) (Some (js "Silva")) (Some (js "not-an-email"))
      (Some (js "(11) 98765-4321")) (Some (FormScreen.mkDate 2000 5 17))
      None (Some (js "BR")) None None (Some true))) (FormScreen.mkDate 2026 1 1)).
  - reflexivity.
Defined.

(** ** C5 *)

(** C5: when validation fails, [handleSubmit] and [handleLogin] make no
    request and call no callback; they store the new error object, keep
    the form data and the loading flag, and the sign-up screen shows the
    "fix the errors" alert. *)
Theorem C5_submit_invalid :
  (forall (todayYear : Z) (onSubmit : option (FormScreen.FormData -> bool))
          (requestResolves : bool) (st : FormScreen.FormState),
     fst (FormScreen.validateForm todayYear (FormScreen.formData st)) = false ->
     let '(st', tr) := FormScreen.handleSubmit todayYear onSubmit requestResolves st in
     count form_is_request tr = 0%nat /\ count form_is_callback tr = 0%nat
     /\ tr = [FormScreen.Alert (js "Erro") FormScreen.msg_fix_errors]
     /\ FormScreen.errors st'
        = snd (FormScreen.validateForm todayYear (FormScreen.formData st))
     /\ FormScreen.formData st' = FormScreen.formData st
     /\ FormScreen.isLoading st' = FormScreen.isLoading st
     /\ FormScreen.showDatePicker st' = FormScreen.showDatePicker st)
  /\ (forall (onLogin : option (jstring -> jstring -> bool))
             (requestResolves : bool) (st : LoginScreen.LoginState),
       fst (LoginScreen.validateForm (LoginScreen.email st)
              (LoginScreen.password st)) = false ->
       let '(st', tr) := LoginScreen.handleLogin onLogin requestResolves st in
       count login_is_request tr = 0%nat /\ count login_is_callback tr = 0%nat
       /\ LoginScreen.errors st'
          = snd (LoginScreen.validateForm (LoginScreen.email st)
                   (LoginScreen.password st))
       /\ LoginScreen.email st' = LoginScreen.email st
       /\ LoginScreen.password st' = LoginScreen.password st
       /\ LoginScreen.isLoading st' = LoginScreen.isLoading st).
Proof.
  split.
  - intros y cb r st H; unfold FormScreen.handleSubmit.
    destruct (FormScreen.validateForm y (FormScreen.formData st)) as [ok e].
    cbn [fst] in H; subst ok; simpl; repeat split.
  - intros cb r st H; unfold LoginScreen.handleLogin.
    destruct (LoginScreen.validateForm (LoginScreen.email st)
                (LoginScreen.password st)) as [ok e].
    cbn [fst] in H; subst ok; simpl; repeat split.
Qed.

(** Witness for C5: submitting the form with an invalid email, and logging
    in from the empty initial login state. *)
Lemma C5_witness :
  (let '(st', tr) := FormScreen.handleSubmit 2026 None true
       (FormScreen.mkFormState bad_email_form FormScreen.noErrors false false) in
   count form_is_request tr = 0%nat /\ count form_is_callback tr = 0%nat
   /\ tr = [FormScreen.Alert (js "Erro") FormScreen.msg_fix_errors]
   /\ FormScreen.errors st' = snd (FormScreen.validateForm 2026 bad_email_form)
   /\ FormScreen.formData st' = bad_email_form
   /\ FormScreen.isLoading st' = false
   /\ FormScreen.showDatePicker st' = false)
  /\ (let '(st', tr) := LoginScreen.handleLogin None true LoginScreen.initialState in
      count login_is_request tr = 0%nat /\ count login_is_callback tr = 0%nat
      /\ LoginScreen.errors st'
         = snd (LoginScreen.validateForm [] [])
      /\ LoginScreen.email st' = [] /\ LoginScreen.password st' = []
      /\ LoginScreen.isLoading st' = false).
Proof.
  split.
  - exact (proj1 C5_submit_invalid 2026 None true
      (FormScreen.mkFormState bad_email_form FormScreen.noErrors false false)
      ltac:(concrete)).
  - exact (proj2 C5_submit_invalid None true LoginScreen.initialState
      ltac:(concrete)).
Defined.

(** ** C6 *)

(** C6: when validation passes, [handleSubmit] and [handleLogin] start
    loading, make exactly one (simulated) submission request, call the
    callback prop at most once (exactly once when it is given and the
    request resolves, which the [setTimeout] promise always does), and,
    whether the request or the callback succeeds or throws, end with the
    loading flag cleared. *)
Theorem C6_submit_valid_once :
  (forall (todayYear : Z) (onSubmit : option (FormScreen.FormData -> bool))
          (requestResolves : bool) (st : FormScreen.FormState),
     fst (FormScreen.validateForm todayYear (FormScreen.formData st)) = true ->
     let '(st', tr) := FormScreen.handleSubmit todayYear onSubmit requestResolves st in
     count form_is_request tr = 1%nat
     /\ count form_is_callback tr = callback_calls requestResolves onSubmit
     /\ (count form_is_callback tr <= 1)%nat
     /\ hd_error tr = Some (FormScreen.SetLoading true)
     /\ last tr (FormScreen.SetLoading true) = FormScreen.SetLoading false
     /\ FormScreen.isLoading st' = false
     /\ FormScreen.formData st' = FormScreen.formData st
     /\ FormScreen.errors st' = FormScreen.noErrors)
  /\ (forall (onLogin : option (jstring -> jstring -> bool))
             (requestResolves : bool) (st : LoginScreen.LoginState),
       fst (LoginScreen.validateForm (LoginScreen.email st)
              (LoginScreen.password st)) = true ->
       let '(st', tr) := LoginScreen.handleLogin onLogin requestResolves st in
       count login_is_request tr = 1%nat
       /\ count login_is_callback tr = callback_calls requestResolves onLogin
       /\ (count login_is_callback tr <= 1)%nat
       /\ hd_error tr = Some (LoginScreen.SetLoading true)
       /\ last tr (LoginScreen.SetLoading true) = LoginScreen.SetLoading false
       /\ LoginScreen.isLoading st' = false
       /\ LoginScreen.email st' = LoginScreen.email st
       /\ LoginScreen.password st' = LoginScreen.password st
       /\ LoginScreen.errors st' = LoginScreen.mkLoginErrors [] []).
Proof.
  split.
  - intros y cb r st H.
    pose proof (proj1 (FormScreen_validateForm_empty y (FormScreen.formData st)) H)
      as He.
    unfold FormScreen.handleSubmit.
    destruct (FormScreen.validateForm y (FormScreen.formData st)) as [ok e].
    cbn [fst snd] in H, He; subst ok e.
    destruct r; [destruct cb as [c|]|]; simpl;
      repeat match goal with
             | |- context [if ?b then _ else _] =>
                 lazymatch type of b with bool => destruct b end
             end; simpl; repeat split; auto.
  - intros cb r st H.
    pose proof (proj1 (LoginScreen_validateForm_empty _ _) H) as He.
    unfold LoginScreen.handleLogin.
    destruct (LoginScreen.validateForm (LoginScreen.email st)
                (LoginScreen.password st)) as [ok e].
    cbn [fst snd] in H, He; subst ok e.
    destruct r; [destruct cb as [c|]|]; simpl;
      repeat match goal with
             | |- context [if ?b then _ else _] =>
                 lazymatch type of b with bool => destruct b end
             end; simpl; repeat split; auto.
Qed.

(** Witness for C6: a valid form whose [onSubmit] throws, and a valid login
    without [onLogin]. *)
Lemma C6_witness :
  (let '(st', tr) := FormScreen.handleSubmit 2026 (Some (fun _ => false)) true
       (FormScreen.mkFormState sample_form FormScreen.noErrors false false) in
   count form_is_request tr = 1%nat
   /\ count form_is_callback tr = callback_calls true (Some (fun _ : FormScreen.FormData => false))
   /\ (count form_is_callback tr <= 1)%nat
   /\ hd_error tr = Some (FormScreen.SetLoading true)
   /\ last tr (FormScreen.SetLoading true) = FormScreen.SetLoading false
   /\ FormScreen.isLoading st' = false
   /\ FormScreen.formData st' = sample_form
   /\ FormScreen.errors st' = FormScreen.noErrors)
  /\ (let '(st', tr) := LoginScreen.handleLogin None true
         (LoginScreen.mkLoginState (js "ana@exemplo.com") (js "abcdef") false false
            (LoginScreen.mkLoginErrors [] [])) in
      count login_is_request tr = 1%nat
      /\ count login_is_callback tr = callback_calls true (@None (jstring -> jstring -> bool))
      /\ (count login_is_callback tr <= 1)%nat
      /\ hd_error tr = Some (LoginScreen.SetLoading true)
      /\ last tr (LoginScreen.SetLoading true) = LoginScreen.SetLoading false
      /\ LoginScreen.isLoading st' = false
      /\ LoginScreen.email st' = js "ana@exemplo.com"
      /\ LoginScreen.password st' = js "abcdef"
      /\ LoginScreen.errors st' = LoginScreen.mkLoginErrors [] []).
Proof.
  split.
  - exact (proj1 C6_submit_valid_once 2026 (Some (fun _ => false)) true
      (FormScreen.mkFormState sample_form FormScreen.noErrors false false)
      ltac:(concrete)).
  - exact (proj2 C6_submit_valid_once None true
      (LoginScreen.mkLoginState (js "ana@exemplo.com") (js "abcdef") false false
         (LoginScreen.mkLoginErrors [] []))
      ltac:(concrete)).
Defined.

(** ** C7 *)

Lemma local_format_length (c : jstring) :
  local_format c <-> List.length c = 10%nat \/ List.length c = 11%nat.
Proof.
  split.
  - intros (a & p & x & -> & Ha & Hp & Hx).
    rewrite !length_app; lia.
  - intro H; exists (firstn 2 c), (firstn (List.length c - 6) (skipn 2 c)),
      (skipn (List.length c - 6) (skipn 2 c)).
    rewrite firstn_skipn, firstn_skipn.
    rewrite !length_firstn, !length_skipn; repeat split; lia.
Qed.

(** C7: [validateForm] flags the phone exactly when it is blank after trim
    or its digits do not form a 10- or 11-digit local-format number. *)
Theorem C7_phone_rule :
  forall (todayYear : Z) (d : FormScreen.FormData),
    FormScreen.get_err (snd (FormScreen.validateForm todayYear d)) FormScreen.E_phone
      <> None
    <-> trim (FormScreen.phone d) = []
        \/ ~ local_format (strip_non_digits (FormScreen.phone d)).
Proof.
  intros y d.
  rewrite FormScreenProofs.validateForm_fields; cbn [snd].
  rewrite FormScreenProofs.get_errors_of, local_format_length; cbn.
  pose proof (validatePhone_digits (FormScreen.phone d)) as Hv.
  pose proof (truthy_nonnil (trim (FormScreen.phone d))) as Ht.
  destruct (truthy (trim (FormScreen.phone d))); simpl.
  - destruct (validatePhone (FormScreen.phone d)); simpl.
    + split; [intro H; contradiction|].
      intros [H|H]; [apply Ht in H; [contradiction|reflexivity]|].
      exfalso; apply H, Hv; reflexivity.
    + split; [intros _; right; intro H; apply Hv in H; discriminate|discriminate].
  - split; [intros _; left|intros _; discriminate].
    destruct (trim (FormScreen.phone d)); [reflexivity|].
    exfalso; assert (false = true) by (apply Ht; discriminate); discriminate.
Qed.

(** ** C8 *)

(** C8: the age is the current year minus the birth year; the birth date is
    flagged exactly when that age is below 13 or above 120; age 12 is
    flagged as below the minimum age and age 13 is not flagged. *)
Theorem C8_age_bounds :
  forall (todayYear : Z) (d : FormScreen.FormData),
    let age := todayYear - FormScreen.getFullYear (FormScreen.birthDate d) in
    (FormScreen.get_err (snd (FormScreen.validateForm todayYear d))
       FormScreen.E_birthDate <> None <-> age < 13 \/ 120 < age)
    /\ (age = 12 ->
        FormScreen.get_err (snd (FormScreen.validateForm todayYear d))
          FormScreen.E_birthDate = Some FormScreen.msg_age_min)
    /\ (age = 13 ->
        FormScreen.get_err (snd (FormScreen.validateForm todayYear d))
          FormScreen.E_birthDate = None).
Proof.
  intros y d age.
  rewrite FormScreenProofs.validateForm_fields; cbn [snd].
  rewrite FormScreenProofs.get_errors_of; cbn [FormScreenFacts.rule]; fold age.
  destruct (age <? 13) eqn:E1; [apply Z.ltb_lt in E1|apply Z.ltb_ge in E1];
    (destruct (120 <? age) eqn:E2; [apply Z.ltb_lt in E2|apply Z.ltb_ge in E2]);
    repeat split; intros;
    first [ discriminate | lia | reflexivity | (left; lia) | (right; lia)
          | match goal with H : _ \/ _ |- _ => destruct H; lia end
          | match goal with H : ?x <> ?x |- _ => now contradiction H end ].
Qed.

(** Witness for C8: birth year 2014 is flagged in 2026 (age 12), birth year
    2013 is not (age 13). *)
Lemma C8_witness :
  FormScreen.get_err (snd (FormScreen.validateForm 2026
      (FormScreen.set_field sample_form FormScreen.F_birthDate
         (FormScreen.mkDate 2014 3 1)))) FormScreen.E_birthDate
    = Some FormScreen.msg_age_min
  /\ FormScreen.get_err (snd (FormScreen.validateForm 2026 born_2013))
       FormScreen.E_birthDate = None.
Proof.
  split.
  - apply (C8_age_bounds 2026 _); concrete.
  - apply (C8_age_bounds 2026 born_2013); concrete.
Defined.

(** ** C9 *)

Lemma firstn_app_exact (n : nat) (a b : jstring) :
  List.length a = n -> firstn n (a ++ b) = a.
Proof.
  intros <-; rewrite firstn_app, firstn_all, Nat.sub_diag, firstn_O, app_nil_r.
  reflexivity.
Qed.

Lemma skipn_app_exact (n : nat) (a b : jstring) :
  List.length a = n -> skipn n (a ++ b) = b.
Proof.
  intros <-; rewrite skipn_app, skipn_all, Nat.sub_diag, skipn_O; reflexivity.
Qed.

Lemma filter_digits_id (g : jstring) :
  forallb is_digit g = true -> filter is_digit g = g.
Proof.
  induction g as [|x g IH]; simpl; [reflexivity|].
  intro H; apply andb_true_iff in H as [H1 H2]; rewrite H1, IH; auto.
Qed.

Lemma phoneGroups_sound (c : jstring) (gs : list jstring) :
  rx phoneGroups c = Some gs ->
  exists g1 g2 g3,
    gs = [g1; g2; g3] /\ c = g1 ++ g2 ++ g3
    /\ List.length g1 = 2%nat
    /\ (List.length g2 = 4%nat \/ List.length g2 = 5%nat)
    /\ List.length g3 = 4%nat
    /\ forallb is_digit g1 = true /\ forallb is_digit g2 = true
    /\ forallb is_digit g3 = true.
Proof.
  intro H; apply rx_sound in H as [Hc Hf].
  inversion Hf as [|p1 g1 ? ? H1 Hf1]; subst.
  inversion Hf1 as [|p2 g2 ? ? H2 Hf2]; subst.
  inversion Hf2 as [|p3 g3 ? ? H3 Hf3]; subst.
  inversion Hf3; subst.
  apply piece_ok_bounded in H1, H2, H3.
  exists g1, g2, g3; simpl; rewrite app_nil_r.
  repeat split; try tauto; lia.
Qed.

Lemma phoneGroups_complete (c : jstring) :
  forallb is_digit c = true ->
  List.length c = 10%nat \/ List.length c = 11%nat ->
  rx phoneGroups c <> None.
Proof.
  intros Hd HL.
  set (k := (List.length c - 6)%nat).
  assert (Hc : c = List.concat [firstn 2 c; firstn k (skipn 2 c); skipn (2 + k) c]).
  { simpl; rewrite app_nil_r, <- (firstn_skipn 2 c) at 1.
    f_equal; rewrite <- (firstn_skipn k (skipn 2 c)) at 1.
    f_equal; rewrite skipn_skipn, Nat.add_comm; reflexivity. }
  rewrite Hc; apply rx_complete.
  repeat constructor; apply piece_ok_bounded;
    unfold k; rewrite ?length_firstn, ?length_skipn;
    (split; [lia|auto using forallb_firstn, forallb_skipn]).
Qed.

(** What [formatPhone] returns, by the match of its regex. *)
Lemma formatPhone_cases (s : jstring) :
  (exists g1 g2 g3,
      strip_non_digits s = g1 ++ g2 ++ g3
      /\ List.length g1 = 2%nat
      /\ (List.length g2 = 4%nat \/ List.length g2 = 5%nat)
      /\ List.length g3 = 4%nat
      /\ forallb is_digit g1 = true /\ forallb is_digit g2 = true
      /\ forallb is_digit g3 = true
      /\ formatPhone s = [40] ++ g1 ++ [41; 32] ++ g2 ++ [45] ++ g3)
  \/ (rx phoneGroups (strip_non_digits s) = None /\ formatPhone s = s).
Proof.
  unfold formatPhone.
  destruct (rx phoneGroups (strip_non_digits s)) as [gs|] eqn:E; [left|right; auto].
  destruct (phoneGroups_sound _ _ E)
    as (g1 & g2 & g3 & -> & Hc & H1 & H2 & H3 & D1 & D2 & D3).
  exists g1, g2, g3; repeat split; auto.
Qed.

Lemma strip_formatted (g1 g2 g3 : jstring) :
  forallb is_digit g1 = true -> forallb is_digit g2 = true ->
  forallb is_digit g3 = true ->
  strip_non_digits ([40] ++ g1 ++ [41; 32] ++ g2 ++ [45] ++ g3) = g1 ++ g2 ++ g3.
Proof.
  intros D1 D2 D3; unfold strip_non_digits.
  rewrite !filter_app, (filter_digits_id g1 D1), (filter_digits_id g2 D2),
          (filter_digits_id g3 D3); reflexivity.
Qed.

Lemma formatPhone_strip (s : jstring) :
  strip_non_digits (formatPhone s) = strip_non_digits s.
Proof.
  destruct (formatPhone_cases s)
    as [(g1 & g2 & g3 & Hc & _ & _ & _ & D1 & D2 & D3 & ->)|[_ ->]];
    [|reflexivity].
  rewrite strip_formatted by assumption; symmetry; exact Hc.
Qed.

(** C9: [formatPhone] keeps the digits of its input; it reformats 10 and 11
    digits as [(dd) dddd-dddd] and [(dd) ddddd-dddd] and returns any other
    input unchanged; hence it is idempotent and [validatePhone] gives the
    same answer on its output as on its input. *)
Theorem C9_formatPhone_digits :
  forall s : jstring,
    let c := strip_non_digits s in
    strip_non_digits (formatPhone s) = c
    /\ formatPhone (formatPhone s) = formatPhone s
    /\ validatePhone (formatPhone s) = validatePhone s
    /\ (List.length c = 10%nat ->
        formatPhone s = [40] ++ firstn 2 c ++ [41; 32] ++ firstn 4 (skipn 2 c)
                        ++ [45] ++ skipn 6 c)
    /\ (List.length c = 11%nat ->
        formatPhone s = [40] ++ firstn 2 c ++ [41; 32] ++ firstn 5 (skipn 2 c)
                        ++ [45] ++ skipn 7 c)
    /\ (List.length c <> 10%nat -> List.length c <> 11%nat -> formatPhone s = s).
Proof.
  intros s c.
  assert (Hshape : forall n,
    List.length c = (6 + n)%nat -> (n = 4 \/ n = 5)%nat ->
    formatPhone s = [40] ++ firstn 2 c ++ [41; 32] ++ firstn n (skipn 2 c)
                    ++ [45] ++ skipn (2 + n) c).
  { intros n Hn Hn45.
    destruct (formatPhone_cases s)
      as [(g1 & g2 & g3 & Hc & H1 & H2 & H3 & _ & _ & _ & ->)|[E _]].
    - fold c in Hc; rewrite Hc in Hn |- *.
      rewrite !length_app in Hn.
      rewrite (firstn_app_exact 2 g1) by exact H1.
      rewrite (skipn_app_exact 2 g1) by exact H1.
      rewrite (firstn_app_exact n g2) by lia.
      rewrite (app_assoc g1 g2 g3), (skipn_app_exact (2 + n) (g1 ++ g2))
        by (rewrite length_app; lia).
      reflexivity.
    - exfalso; revert E; apply phoneGroups_complete;
        [apply strip_digits|fold c; lia]. }
  split; [apply formatPhone_strip|].
  split.
  { unfold formatPhone at 1; cbv zeta; rewrite formatPhone_strip.
    destruct (rx phoneGroups (strip_non_digits s)) as [gs|] eqn:E;
      [|reflexivity].
    destruct gs as [|g1 [|g2 [|g3 [|g4 gs]]]]; try reflexivity.
    unfold formatPhone; rewrite E; reflexivity. }
  split; [unfold validatePhone; rewrite formatPhone_strip; reflexivity|].
  split; [intro H; apply (Hshape 4%nat); lia|].
  split; [intro H; apply (Hshape 5%nat); lia|].
  intros H10 H11.
  destruct (formatPhone_cases s)
    as [(g1 & g2 & g3 & Hc & H1 & H2 & H3 & _)|[_ ->]]; [|reflexivity].
  exfalso; fold c in Hc; apply (f_equal (@List.length Z)) in Hc.
  rewrite !length_app in Hc; lia.
Qed.

(** Witness for C9: eleven digits are grouped 2/5/4. *)
Lemma C9_witness :
  formatPhone (js "11987654321") = js "(11) 98765-4321".
Proof.
  rewrite (proj1 (proj2 (proj2 (proj2 (proj2 (C9_formatPhone_digits (js "11987654321")))))))
    by concrete.
  reflexivity.
Defined.

(** ** C10 *)

(** C10 as stated fails: the computed age of the default birth date is not
    always 0.  A screen opened on 31 December 2025 and validated in 2026
    computes age 1. *)
Lemma C10_counterexample :
  2026 - FormScreen.getFullYear
           (FormScreen.birthDate
              (FormScreen.formData
                 (FormScreen.initialState None (FormScreen.mkDate 2025 12 31))))
  = 1.
Proof. reflexivity. Qed.

(** C10 (as amended).  Without initial data the birth date is the date the
    screen was opened; as long as [validateForm] runs fewer than 13 calendar
    years after that (age 0 in the same year), any form data with that birth
    date is invalid and its birth date is flagged as below the minimum age. *)
Theorem C10_default_birthDate_invalid :
  (forall now : FormScreen.Date,
     FormScreen.birthDate (FormScreen.formData (FormScreen.initialState None now))
     = now)
  /\ (forall (now : FormScreen.Date) (todayYear : Z) (d : FormScreen.FormData),
       FormScreen.birthDate d = now ->
       todayYear - FormScreen.getFullYear now < 13 ->
       fst (FormScreen.validateForm todayYear d) = false
       /\ FormScreen.get_err (snd (FormScreen.validateForm todayYear d))
            FormScreen.E_birthDate = Some FormScreen.msg_age_min).
Proof.
  split; [reflexivity|].
  intros now y d Hb Hy.
  rewrite FormScreenProofs.validateForm_fields; cbn [fst snd].
  rewrite FormScreenProofs.get_errors_of.
  assert (E : FormScreenFacts.rule y d FormScreen.E_birthDate
              = Some FormScreen.msg_age_min).
  { cbn [FormScreenFacts.rule]; rewrite Hb.
    replace (y - FormScreen.getFullYear now <? 13) with true
      by (symmetry; apply Z.ltb_lt; exact Hy).
    reflexivity. }
  split; [|exact E].
  unfold FormScreenFacts.all_none, FormScreenFacts.errors_of; rewrite E.
  cbn [FormScreenFacts.all_errfields forallb FormScreen.get_err
       FormScreenFacts.is_none].
  rewrite andb_false_l, !andb_false_r; reflexivity.
Qed.

(** Witness for C10: the initial form opened in 2026 and validated in the
    same year. *)
Lemma C10_witness :
  fst (FormScreen.validateForm 2026
         (FormScreen.formData
            (FormScreen.initialState None (FormScreen.mkDate 2026 3 10)))) = false.
Proof.
  apply (proj2 C10_default_birthDate_invalid (FormScreen.mkDate 2026 3 10));
    concrete.
Defined.

(** * Further properties of the screens *)

(** ** Email pattern *)

Lemma piece_ok_plus (cl : Z -> bool) (g : jstring) :
  piece_ok (plus cl) g = true <-> g <> [] /\ forallb cl g = true.
Proof.
  unfold piece_ok, plus; simpl.
  destruct g as [|x g]; simpl; [split; [discriminate|intros [H _]; congruence]|].
  rewrite andb_true_r; split; [intro H; split; [discriminate|exact H]|tauto].
Qed.

Lemma piece_ok_lit (c : Z) (g : jstring) :
  piece_ok (one (lit c)) g = true <-> g = [c].
Proof.
  unfold piece_ok, one, lit; simpl.
  destruct g as [|x [|y g]]; simpl; rewrite ?andb_false_r;
    try (split; [discriminate|congruence]).
  rewrite !andb_true_r; split.
  - intro H; apply Z.eqb_eq in H; subst; reflexivity.
  - intro H; inversion H; apply Z.eqb_refl.
Qed.

(** The strings [validateEmail] accepts: [local@domain.tld] with the three
    parts non-empty and free of white space and of [@]. *)
Lemma validateEmail_shape (s : jstring) :
  validateEmail s = true <->
  exists a b c, s = a ++ [64] ++ b ++ [46] ++ c
    /\ a <> [] /\ b <> [] /\ c <> []
    /\ forallb not_ws_at a = true /\ forallb not_ws_at b = true
    /\ forallb not_ws_at c = true.
Proof.
  unfold validateEmail, rx_test; split.
  - destruct (rx emailRegex s) as [gs|] eqn:Hr; [intros _|discriminate].
    apply rx_sound in Hr as [Hc Hf].
    inversion Hf as [|p1 a ? ? H1 Hf1]; subst.
    inversion Hf1 as [|p2 g2 ? ? H2 Hf2]; subst.
    inversion Hf2 as [|p3 b ? ? H3 Hf3]; subst.
    inversion Hf3 as [|p4 g4 ? ? H4 Hf4]; subst.
    inversion Hf4 as [|p5 c ? ? H5 Hf5]; subst.
    inversion Hf5; subst.
    apply piece_ok_plus in H1, H3, H5; apply piece_ok_lit in H2, H4; subst.
    exists a, b, c; simpl; rewrite app_nil_r; tauto.
  - intros (a & b & c & -> & Ha & Hb & Hc & Fa & Fb & Fc).
    assert (E : a ++ [64] ++ b ++ [46] ++ c = List.concat [a; [64]; b; [46]; c])
      by (simpl; rewrite app_nil_r; reflexivity).
    rewrite E; destruct (rx _ _) eqn:Hr; [reflexivity|].
    exfalso; revert Hr; apply rx_complete.
    repeat constructor;
      first [apply piece_ok_plus; tauto | apply piece_ok_lit; reflexivity].
Qed.

(** X1: [validateEmail] accepts exactly [a ++ "@" ++ b ++ "." ++ c] with
    [a], [b], [c] non-empty and containing neither white space nor [@]. *)
Theorem X1_validateEmail_shape :
  forall s : jstring,
    validateEmail s = true <->
    exists a b c, s = a ++ [64] ++ b ++ [46] ++ c
      /\ a <> [] /\ b <> [] /\ c <> []
      /\ forallb not_ws_at a = true /\ forallb not_ws_at b = true
      /\ forallb not_ws_at c = true.
Proof. exact validateEmail_shape. Qed.

Lemma validateEmail_no_ws (s : jstring) (x : Z) :
  In x s -> is_ws x = true -> validateEmail s = false.
Proof.
  intros Hin Hw.
  destruct (validateEmail s) eqn:E; [|reflexivity].
  apply validateEmail_shape in E as (a & b & c & -> & _ & _ & _ & Fa & Fb & Fc).
  exfalso.
  assert (Hnw : forall l, forallb not_ws_at l = true -> In x l -> False).
  { intros l Fl Hl; rewrite forallb_forall in Fl; specialize (Fl x Hl).
    unfold not_ws_at in Fl; rewrite Hw in Fl; discriminate. }
  repeat (apply in_app_or in Hin as [Hin|Hin]);
    try (destruct Hin as [Hin|[]]; subst; discriminate);
    eauto.
Qed.

(** X2: an email that is not blank but contains white space anywhere (for
    instance a trailing space) is flagged with the "invalid" message by both
    screens, since the pattern is tested on the untrimmed value. *)
Theorem X2_email_whitespace_invalid :
  forall (e : jstring) (x : Z),
    In x e -> is_ws x = true -> truthy (trim e) = true ->
    (forall (todayYear : Z) (d : FormScreen.FormData),
       FormScreen.email d = e ->
       FormScreen.get_err (snd (FormScreen.validateForm todayYear d))
         FormScreen.E_email = Some FormScreen.msg_email_invalid)
    /\ (forall p : jstring,
          LoginScreen.err_email (snd (LoginScreen.validateForm e p))
          = LoginScreen.msg_email_invalid).
Proof.
  intros e x Hin Hw Ht.
  pose proof (validateEmail_no_ws e x Hin Hw) as Hv.
  split.
  - intros y d <-.
    rewrite FormScreenProofs.validateForm_fields; cbn [snd].
    rewrite FormScreenProofs.get_errors_of; cbn [FormScreenFacts.rule].
    rewrite Ht, Hv; reflexivity.
  - intro p; unfold LoginScreen.validateForm; rewrite Ht, Hv; cbn.
    destruct (if negb (truthy (trim p)) then _ else _); reflexivity.
Qed.

(** Witness for X2: ["ana@exemplo.com "] with a trailing space. *)
Lemma X2_witness :
  FormScreen.get_err
    (snd (FormScreen.validateForm 2026
            (FormScreen.set_field sample_form FormScreen.F_email
               (js "ana@exemplo.com "))))
    FormScreen.E_email = Some FormScreen.msg_email_invalid.
Proof.
  apply (proj1 (X2_email_whitespace_invalid (js "ana@exemplo.com ") 32
                  ltac:(vm_compute; tauto) ltac:(reflexivity) ltac:(reflexivity))).
  reflexivity.
Defined.

(** ** Submission *)

(** X3: the submit handlers hand nothing unvalidated to their callback:
    every [onSubmit(d)] in a trace of [handleSubmit] passes the current
    form data, on which [validateForm] reports valid with no error, and
    every [onLogin(e, p)] passes the current credentials, which the login
    [validateForm] accepts with both messages empty. *)
Theorem X3_submit_only_valid :
  (forall (todayYear : Z) (onSubmit : option (FormScreen.FormData -> bool))
          (requestResolves : bool) (st : FormScreen.FormState)
          (d : FormScreen.FormData),
     In (FormScreen.OnSubmit d)
        (snd (FormScreen.handleSubmit todayYear onSubmit requestResolves st)) ->
     d = FormScreen.formData st
     /\ FormScreen.validateForm todayYear d = (true, FormScreen.noErrors))
  /\ (forall (onLogin : option (jstring -> jstring -> bool))
             (requestResolves : bool) (st : LoginScreen.LoginState)
             (e p : jstring),
        In (LoginScreen.OnLogin e p)
           (snd (LoginScreen.handleLogin onLogin requestResolves st)) ->
        e = LoginScreen.email st /\ p = LoginScreen.password st
        /\ LoginScreen.validateForm e p = (true, LoginScreen.mkLoginErrors [] [])).
Proof.
  split.
  - intros y cb r st d H; unfold FormScreen.handleSubmit in H.
    destruct (FormScreen.validateForm y (FormScreen.formData st)) as [ok ne] eqn:E.
    destruct ok; [|destruct H as [H|[]]; discriminate].
    assert (Hd : d = FormScreen.formData st).
    { destruct r; [destruct cb as [cb|]|]; simpl in H;
        [destruct (cb (FormScreen.formData st)); simpl in H| |];
        repeat (destruct H as [H|H]; [try discriminate; congruence|]);
        contradiction. }
    subst d; split; [reflexivity|rewrite E; f_equal].
    pose proof (proj1 (FormScreen_validateForm_empty y (FormScreen.formData st)))
      as Hn; rewrite E in Hn; exact (Hn eq_refl).
  - intros cb r st e p H; unfold LoginScreen.handleLogin in H.
    destruct (LoginScreen.validateForm (LoginScreen.email st)
                (LoginScreen.password st)) as [ok ne] eqn:E.
    destruct ok; [|destruct H].
    assert (Hd : e = LoginScreen.email st /\ p = LoginScreen.password st).
    { destruct r; [destruct cb as [cb|]|]; simpl in H;
        [destruct (cb (LoginScreen.email st) (LoginScreen.password st));
         simpl in H| |];
        repeat (destruct H as [H|H]; [try discriminate; inversion H; auto|]);
        contradiction. }
    destruct Hd as [-> ->]; split; [reflexivity|split; [reflexivity|]].
    rewrite E; f_equal.
    pose proof (proj1 (LoginScreen_validateForm_empty (LoginScreen.email st)
                         (LoginScreen.password st))) as Hn;
      rewrite E in Hn; exact (Hn eq_refl).
Qed.

(** Witness for X3: a valid form submitted with a callback. *)
Lemma X3_witness :
  FormScreen.validateForm 2026 sample_form = (true, FormScreen.noErrors).
Proof.
  apply (proj1 X3_submit_only_valid 2026 (Some (fun _ => true)) true
           (FormScreen.mkFormState sample_form FormScreen.noErrors false false)
           sample_form).
  vm_compute; right; right; left; reflexivity.
Defined.






(** ** Field edits *)

Ltac split_errs :=
  repeat (cbn -[truthy]; match goal with
         | |- context [match ?o with Some _ => _ | None => _ end] =>
             is_var o; destruct o
         | H : truthy ?m = _ |- context [truthy ?m] => rewrite H
         | |- context [truthy ?m] =>
             is_var m; let T := fresh "T" in destruct (truthy m) eqn:T
         end).

(** X7: edits of two different fields commute: the order in which
    [updateFormData] stores them (and clears their error entries) does not
    matter. *)
Theorem X7_updateFormData_commute :
  forall (st : FormScreen.FormState) (f g : FormScreen.field)
         (v : FormScreen.value_of f) (w : FormScreen.value_of g),
    f <> g ->
    FormScreen.updateFormData (FormScreen.updateFormData st f v) g w
    = FormScreen.updateFormData (FormScreen.updateFormData st g w) f v.
Proof.
  intros [[a b c p t k o n x z] [e1 e2 e3 e4 e5 e6 e7] sp ld] f g v w H.
  destruct f, g; try (exfalso; apply H; reflexivity);
    unfold FormScreen.updateFormData; split_errs; reflexivity.
Qed.

(** Witness for X7: a first-name edit and a phone edit. *)
Lemma X7_witness :
  FormScreen.updateFormData
    (FormScreen.updateFormData
       (FormScreen.initialState None (FormScreen.mkDate 2026 1 1))
       FormScreen.F_firstName (js "Ana"))
    FormScreen.F_phone (js "11987654321")
  = FormScreen.updateFormData
      (FormScreen.updateFormData
         (FormScreen.initialState None (FormScreen.mkDate 2026 1 1))
         FormScreen.F_phone (js "11987654321"))
      FormScreen.F_firstName (js "Ana").
Proof. apply X7_updateFormData_commute; discriminate. Defined.

(** X8: two edits of the same field amount to the last one alone. *)
Theorem X8_updateFormData_last_wins :
  forall (st : FormScreen.FormState) (f : FormScreen.field)
         (v w : FormScreen.value_of f),
    FormScreen.updateFormData (FormScreen.updateFormData st f v) f w
    = FormScreen.updateFormData st f w.
Proof.
  intros [[a b c p t k o n x z] [e1 e2 e3 e4 e5 e6 e7] sp ld] f v w.
  destruct f; unfold FormScreen.updateFormData; split_errs; reflexivity.
Qed.

Lemma formatPhone_blank (s : jstring) :
  truthy (trim (formatPhone s)) = truthy (trim s).
Proof.
  destruct (formatPhone_cases s)
    as [(g1 & g2 & g3 & Hc & H1 & _ & _ & D1 & _ & _ & ->)|[_ ->]];
    [|reflexivity].
  rewrite (trim_truthy_of _ 40) by (simpl; auto).
  destruct g1 as [|x g1]; [discriminate|].
  symmetry; apply (trim_truthy_of _ x).
  - assert (Hx : In x (strip_non_digits s)) by (rewrite Hc; left; reflexivity).
    apply filter_In in Hx; tauto.
  - apply andb_true_iff in D1 as [D1 _].
    destruct (is_ws x) eqn:W; [|reflexivity].
    rewrite (ws_not_digit x W) in D1; discriminate.
Qed.

(** X9: formatting the phone as it is typed never changes how the form
    judges it: after [onChangeText] of the phone field, [validateForm]
    gives the phone the same error as it would give the raw text. *)
Theorem X9_onChangePhone_same_verdict :
  forall (st : FormScreen.FormState) (text : jstring) (todayYear : Z),
    FormScreen.get_err
      (snd (FormScreen.validateForm todayYear
              (FormScreen.formData (onChangePhone st text)))) FormScreen.E_phone
    = FormScreen.get_err
        (snd (FormScreen.validateForm todayYear
                (FormScreen.set_field (FormScreen.formData st) FormScreen.F_phone
                   text))) FormScreen.E_phone.
Proof.
  intros st t y.
  rewrite !FormScreenProofs.validateForm_fields; cbn [snd].
  rewrite !FormScreenProofs.get_errors_of.
  unfold onChangePhone, FormScreen.updateFormData; cbn [FormScreen.formData].
  destruct (FormScreen.formData st);
    cbn [FormScreenFacts.rule FormScreen.set_field FormScreen.phone].
  rewrite formatPhone_blank.
  unfold validatePhone at 1; rewrite formatPhone_strip; reflexivity.
Qed.




(** ** What [validateForm] reads *)

(** X11: [validateForm] never looks at the gender, notifications or
    newsletter fields (the fields without an error entry): changing one of
    them changes neither the validity flag nor any error. *)
Theorem X11_validate_ignores_unchecked :
  forall (todayYear : Z) (d : FormScreen.FormData) (f : FormScreen.field)
         (v : FormScreen.value_of f),
    FormScreen.err_of f = None ->
    FormScreen.validateForm todayYear (FormScreen.set_field d f v)
    = FormScreen.validateForm todayYear d.
Proof.
  intros y [a b c p t k o n x z] f v H; destruct f; try discriminate H;
    reflexivity.
Qed.

(** Witness for X11: switching the newsletter off. *)
Lemma X11_witness :
  FormScreen.validateForm 2026
    (FormScreen.set_field sample_form FormScreen.F_newsletter false)
  = FormScreen.validateForm 2026 sample_form.
Proof. apply X11_validate_ignores_unchecked; reflexivity. Defined.

Lemma validate_local (todayYear : Z) (d : FormScreen.FormData)
  (f : FormScreen.field) (v : FormScreen.value_of f) (ef : FormScreen.errfield) :
  FormScreen.err_of f <> Some ef ->
  FormScreen.get_err
    (snd (FormScreen.validateForm todayYear (FormScreen.set_field d f v))) ef
  = FormScreen.get_err (snd (FormScreen.validateForm todayYear d)) ef.
Proof.
  destruct d as [a b c p t k o n x z]; intro H.
  rewrite !FormScreenProofs.validateForm_fields; cbn [snd].
  rewrite !FormScreenProofs.get_errors_of.
  destruct f, ef; try (exfalso; apply H; reflexivity); reflexivity.
Qed.

(** X12: each field's error depends on that field alone: changing a field
    leaves the error [validateForm] gives every other field unchanged. *)
Theorem X12_validate_local :
  forall (todayYear : Z) (d : FormScreen.FormData) (f : FormScreen.field)
         (v : FormScreen.value_of f) (ef : FormScreen.errfield),
    FormScreen.err_of f <> Some ef ->
    FormScreen.get_err
      (snd (FormScreen.validateForm todayYear (FormScreen.set_field d f v))) ef
    = FormScreen.get_err (snd (FormScreen.validateForm todayYear d)) ef.
Proof. exact validate_local. Qed.

(** Witness for X12: an invalid email does not affect the phone's error. *)
Lemma X12_witness :
  FormScreen.get_err (snd (FormScreen.validateForm 2026 bad_email_form))
    FormScreen.E_phone
  = FormScreen.get_err (snd (FormScreen.validateForm 2026 sample_form))
      FormScreen.E_phone.
Proof. apply X12_validate_local; discriminate. Defined.

(** X13: the minimum lengths count the untrimmed value: a one-letter first
    or last name followed by a space passes the sign-up rules, and a
    one-letter password followed by five spaces passes the login rule. *)
Theorem X13_min_length_untrimmed :
  forall x : Z, is_ws x = false ->
    (forall (todayYear : Z) (d : FormScreen.FormData) (w : Z),
       FormScreen.firstName d = [x; w] ->
       FormScreen.get_err (snd (FormScreen.validateForm todayYear d))
         FormScreen.E_firstName = None)
    /\ (forall (todayYear : Z) (d : FormScreen.FormData) (w : Z),
          FormScreen.lastName d = [x; w] ->
          FormScreen.get_err (snd (FormScreen.validateForm todayYear d))
            FormScreen.E_lastName = None)
    /\ (forall e : jstring,
          LoginScreen.err_password
            (snd (LoginScreen.validateForm e (x :: repeat 32 5))) = []).
Proof.
  intros x Hx.
  assert (T : forall w, truthy (trim [x; w]) = true)
    by (intro w; apply (trim_truthy_of _ x); [left; reflexivity|exact Hx]).
  split; [|split].
  - intros y d w Hd.
    rewrite FormScreenProofs.validateForm_fields; cbn [snd].
    rewrite FormScreenProofs.get_errors_of; cbn [FormScreenFacts.rule].
    rewrite Hd, T; reflexivity.
  - intros y d w Hd.
    rewrite FormScreenProofs.validateForm_fields; cbn [snd].
    rewrite FormScreenProofs.get_errors_of; cbn [FormScreenFacts.rule].
    rewrite Hd, T; reflexivity.
  - intro e; unfold LoginScreen.validateForm.
    rewrite (trim_truthy_of (x :: repeat 32 5) x) by (auto; left; reflexivity).
    destruct (if negb (truthy (trim e)) then _ else _); reflexivity.
Qed.

(** Witness for X13: the names ["A "] and the password ["A     "]. *)
Lemma X13_witness :
  FormScreen.get_err
    (snd (FormScreen.validateForm 2026
            (FormScreen.set_field sample_form FormScreen.F_firstName (js "A "))))
    FormScreen.E_firstName = None
  /\ LoginScreen.err_password
       (snd (LoginScreen.validateForm (js "ana@exemplo.com") (js "A     "))) = [].
Proof.
  split.
  - apply (proj1 (X13_min_length_untrimmed 65 eq_refl) 2026 _ 32); reflexivity.
  - apply (proj2 (proj2 (X13_min_length_untrimmed 65 eq_refl))).
Defined.

(** X14: a screen opened without initial data is invalid at every clock
    year: first name, last name, email, phone and country all carry their
    "required" message, and the empty bio is not flagged. *)
Theorem X14_fresh_form_required :
  forall (now : FormScreen.Date) (todayYear : Z),
    let r := FormScreen.validateForm todayYear
               (FormScreen.formData (FormScreen.initialState None now)) in
    fst r = false
    /\ FormScreen.err_firstName (snd r) = Some FormScreen.msg_firstName_required
    /\ FormScreen.err_lastName (snd r) = Some FormScreen.msg_lastName_required
    /\ FormScreen.err_email (snd r) = Some FormScreen.msg_email_required
    /\ FormScreen.err_phone (snd r) = Some FormScreen.msg_phone_required
    /\ FormScreen.err_country (snd r) = Some FormScreen.msg_country_required
    /\ FormScreen.err_bio (snd r) = None.
Proof.
  intros now y r; unfold r.
  rewrite FormScreenProofs.validateForm_fields; cbn [fst snd].
  unfold FormScreenFacts.all_none, FormScreenFacts.errors_of.
  cbn [FormScreen.err_firstName FormScreen.err_lastName FormScreen.err_email
       FormScreen.err_phone FormScreen.err_country FormScreen.err_bio].
  repeat split; reflexivity.
Qed.

(** X15: initial data that gives every field is taken over as it is: the
    screen starts with exactly that form data, no error, the picker closed
    and not loading (an empty string given for a field falls back to the
    default [''], which is the same value). *)
Theorem X15_initialState_full :
  forall (d : FormScreen.FormData) (now : FormScreen.Date),
    FormScreen.initialState (Some (full_partial d)) now
    = FormScreen.mkFormState d FormScreen.noErrors false false.
Proof.
  intros [a b c p t k o n x z] now; unfold FormScreen.initialState; cbn.
  destruct a, b, c, p, k, o, n, x, z; reflexivity.
Qed.

(** X16: the two screens judge an email the same way: the sign-up form's
    email error is the login screen's email message when that message is
    non-empty, and no error when it is empty. *)
Theorem X16_email_rule_shared :
  forall (todayYear : Z) (d : FormScreen.FormData) (password : jstring),
    let m := LoginScreen.err_email
               (snd (LoginScreen.validateForm (FormScreen.email d) password)) in
    FormScreen.get_err (snd (FormScreen.validateForm todayYear d))
      FormScreen.E_email
    = if truthy m then Some m else None.
Proof.
  intros y d pw m; unfold m.
  rewrite FormScreenProofs.validateForm_fields; cbn [snd].
  rewrite FormScreenProofs.get_errors_of; cbn [FormScreenFacts.rule].
  unfold LoginScreen.validateForm.
  destruct (if negb (truthy (trim pw)) then _ else _) as [e2 ok2].
  destruct (truthy (trim (FormScreen.email d))), (validateEmail (FormScreen.email d));
    reflexivity.
Qed.

(** ** [formatTimeAgo] *)

Ltac zdiv := Z.div_mod_to_equations; lia.

Lemma num_to_string_digits (q : Z) :
  0 <= q -> forallb is_digit (DashboardScreen.num_to_string q) = true.
Proof.
  intro H; destruct q as [|p|p]; [reflexivity| |lia].
  unfold DashboardScreen.num_to_string, js; cbn [Z.to_int NilEmpty.string_of_int].
  induction (Pos.to_uint p); simpl; auto.
Qed.

Lemma num_to_string_neg (q : Z) :
  q < 0 -> DashboardScreen.num_to_string q
           = 45 :: DashboardScreen.num_to_string (- q).
Proof. intro H; destruct q as [|p|p]; [lia|lia|reflexivity]. Qed.

(** X17: for a date in the past, [formatTimeAgo] picks the unit by the
    elapsed time [e]: whole minutes (0 to 59) below one hour, whole hours
    (1 to 23) below one day, whole days (at least 1) from then on; the
    count is written in decimal digits only. *)
Theorem X17_formatTimeAgo_past :
  forall now date : Z,
    0 <= now - date ->
    let e := now - date in
    (e < 3600000 ->
     DashboardScreen.formatTimeAgo now date
       = DashboardScreen.num_to_string (e / 60000) ++ DashboardScreen.suffix_m
     /\ 0 <= e / 60000 < 60
     /\ forallb is_digit (DashboardScreen.num_to_string (e / 60000)) = true)
    /\ (3600000 <= e < 86400000 ->
        DashboardScreen.formatTimeAgo now date
          = DashboardScreen.num_to_string (e / 3600000) ++ DashboardScreen.suffix_h
        /\ 1 <= e / 3600000 < 24
        /\ forallb is_digit (DashboardScreen.num_to_string (e / 3600000)) = true)
    /\ (86400000 <= e ->
        DashboardScreen.formatTimeAgo now date
          = DashboardScreen.num_to_string (e / 86400000) ++ DashboardScreen.suffix_d
        /\ 1 <= e / 86400000
        /\ forallb is_digit (DashboardScreen.num_to_string (e / 86400000)) = true).
Proof.
  intros now date H0 e.
  unfold DashboardScreen.formatTimeAgo; fold e; change (1000 * 60) with 60000.
  fold e in H0; clearbody e.
  split; [|split]; intro H.
  - replace (e / 60000 <? 60) with true by (symmetry; apply Z.ltb_lt; zdiv).
    split; [reflexivity|split; [zdiv|apply num_to_string_digits; zdiv]].
  - replace (e / 60000 <? 60) with false by (symmetry; apply Z.ltb_ge; zdiv).
    replace (e / 60000 <? 1440) with true by (symmetry; apply Z.ltb_lt; zdiv).
    rewrite Z.div_div by lia.
    split; [reflexivity|split; [zdiv|apply num_to_string_digits; zdiv]].
  - replace (e / 60000 <? 60) with false by (symmetry; apply Z.ltb_ge; zdiv).
    replace (e / 60000 <? 1440) with false by (symmetry; apply Z.ltb_ge; zdiv).
    rewrite Z.div_div by lia.
    split; [reflexivity|split; [zdiv|apply num_to_string_digits; zdiv]].
Qed.

(** Witness for X17: 90 minutes ago reads ["1h atrás"]. *)
Lemma X17_witness :
  DashboardScreen.formatTimeAgo 5400000 0
  = DashboardScreen.num_to_string 1 ++ DashboardScreen.suffix_h.
Proof.
  apply (proj1 (proj1 (proj2 (X17_formatTimeAgo_past 5400000 0 ltac:(lia)))
                  ltac:(lia))).
Defined.

(** X18: a date in the future (for instance a clock skew of one
    millisecond) is shown as a negative number of minutes: a minus sign,
    then at least [1], then ["m atrás"]. *)
Theorem X18_formatTimeAgo_future :
  forall now date : Z,
    now < date ->
    let q := - ((now - date) / 60000) in
    DashboardScreen.formatTimeAgo now date
      = [45] ++ DashboardScreen.num_to_string q ++ DashboardScreen.suffix_m
    /\ 1 <= q.
Proof.
  intros now date H q.
  unfold DashboardScreen.formatTimeAgo; change (1000 * 60) with 60000.
  replace ((now - date) / 60000 <? 60) with true by (symmetry; apply Z.ltb_lt; zdiv).
  rewrite num_to_string_neg by zdiv.
  split; [reflexivity|unfold q; zdiv].
Qed.

(** Witness for X18: one millisecond in the future reads ["-1m atrás"]. *)
Lemma X18_witness :
  DashboardScreen.formatTimeAgo 0 1 = js "-1m atr" ++ [225] ++ js "s".
Proof.
  rewrite (proj1 (X18_formatTimeAgo_future 0 1 ltac:(lia))); reflexivity.
Defined.

(** ** Outcome of a valid submission *)




(** ** Errors on screen are never stale *)




